(** * http-chat-client: a shallow embedding of the chat client and its properties

    The repository holds two variants of [http-chat-client.go].  Both are
    embedded here: the first one (structured logger, ticker driven heartbeat)
    in [Module V1], the second one (standard logger, sleeping heartbeat loop)
    in [Module V2].  The types, the constants and the effect monad they share
    come first.

    Effects are explicit.  A Go function that talks to the network, reads a
    file, logs, panics or ends the process becomes a function
    [State -> Outcome A * State]; what the outside world answers (the remote
    backend, the file system, the process environment, the clock) is an [Env];
    what the imported packages compute on bytes (encoding/json decoding,
    time formatting) is a [Lib]. *)

From Stdlib Require Import String Ascii List ZArith Lia Bool.
From Stdlib Require Import Decimal DecimalString.
Import ListNotations.

Local Open Scope string_scope.
Local Open Scope Z_scope.

(* ------------------------------------------------------------------ *)
(** ** Characters that cannot be written inside a string literal *)

Definition dq : string := String "034"%char EmptyString.
Definition nl : string := String "010"%char EmptyString.
Definition tab : string := String "009"%char EmptyString.

(* ------------------------------------------------------------------ *)
(** ** Constants of the [const ( ... )] block (the same in both variants) *)

Definition endPointSendMessage : string := "/send-message".
Definition endPointGetMessages : string := "/get-messages".
Definition endPointGetUsers : string := "/get-users".
Definition formKeyMessage : string := "message".
Definition defaultHTTPChatServer : string := "chat.server.net".
Definition defaultHTTPChatPort : Z := 8080.
Definition defaultWebServerPortNumber : Z := 99.
Definition envVarUserNameKey : string := "HTTPCHAT_USERNAME".
Definition envVarConfigFileNameKey : string := "CONFIG_FILENAME".

(** [http.StatusOK] and [http.StatusCreated]. *)
Definition StatusOK : Z := 200.
Definition StatusCreated : Z := 201.

(* ------------------------------------------------------------------ *)
(** ** Data model *)

(** A [time.Time] is an instant, counted in nanoseconds from the instant the
    zero value of the Go struct denotes (January 1, year 1, 00:00:00 UTC). *)
Definition Time : Type := Z.
Definition zeroTime : Time := 0.

Module Message.
Record t : Type := mk
  { Username : string;
    Message : string;
    TimeSent : Time }.
End Message.

Module User.
Record t : Type := mk
  { Username : string;
    LastPing : Time }.
End User.

Module Ping.
Record t : Type := mk
  { Username : string;
    TimeSent : Time }.
End Ping.

(** ChatConfig keeps the config needed to connect to the HTTPChat network. *)
Record ChatConfig : Type := mkChatConfig
  { ChatServerFQDN : string;
    ChatServerPort : Z;
    WebServerPortNumber : Z }.

(** A Go string is a sequence of bytes; [json.Marshal] writes it as a
    JSON string, which is text.  It keeps every valid UTF-8 sequence and
    writes U+FFFD in the place of each byte that is part of none.  The
    functions below follow [utf8.DecodeRuneInString]: which bytes may start
    a sequence, how long it is, and in which range its second byte lies. *)
Definition byteOf (c : ascii) : nat := nat_of_ascii c.

Definition inRange (lo hi : nat) (c : ascii) : bool :=
  ((lo <=? byteOf c) && (byteOf c <=? hi))%nat.

(** Whether [s] starts with [more] continuation bytes (bytes in
    [0x80..0xBF]). *)
Fixpoint continuations (more : nat) (s : string) : bool :=
  match more with
  | O => true
  | S k =>
      match s with
      | EmptyString => false
      | String c rest => inRange 128 191 c && continuations k rest
      end
  end.

(** Whether [s] starts with a byte in [lo..hi] and [more] continuation
    bytes after it. *)
Definition followedBy (lo hi more : nat) (s : string) : bool :=
  match s with
  | EmptyString => false
  | String c rest => inRange lo hi c && continuations more rest
  end.

(** The number of bytes of the valid UTF-8 sequence that [s] starts with;
    0 when it starts with none (the decoder's [RuneError] of size 1), and
    for the empty string. *)
Definition runeLength (s : string) : nat :=
  match s with
  | EmptyString => 0
  | String c rest =>
      if (byteOf c <? 128)%nat then 1
      else if inRange 194 223 c then
        if followedBy 128 191 0 rest then 2 else 0
      else if inRange 224 224 c then
        if followedBy 160 191 1 rest then 3 else 0
      else if inRange 225 236 c then
        if followedBy 128 191 1 rest then 3 else 0
      else if inRange 237 237 c then
        if followedBy 128 159 1 rest then 3 else 0
      else if inRange 238 239 c then
        if followedBy 128 191 1 rest then 3 else 0
      else if inRange 240 240 c then
        if followedBy 144 191 2 rest then 4 else 0
      else if inRange 241 243 c then
        if followedBy 128 191 2 rest then 4 else 0
      else if inRange 244 244 c then
        if followedBy 128 143 2 rest then 4 else 0
      else 0
  end%nat.

(** U+FFFD in UTF-8: the bytes EF BF BD. *)
Definition replacementChar : string :=
  String "239"%char (String "191"%char (String "189"%char EmptyString)).

(** [skip] is the number of bytes still to copy of the sequence the walk is
    in. *)
Fixpoint replaceInvalidFrom (skip : nat) (s : string) : string :=
  match s with
  | EmptyString => EmptyString
  | String c rest =>
      match skip with
      | S k => String c (replaceInvalidFrom k rest)
      | O =>
          match runeLength s with
          | O => replacementChar ++ replaceInvalidFrom 0 rest
          | S k => String c (replaceInvalidFrom k rest)
          end
      end
  end.

(** The text of the JSON string that [json.Marshal] writes for [s]. *)
Definition replaceInvalidUTF8 (s : string) : string :=
  replaceInvalidFrom 0 s.

Arguments replaceInvalidUTF8 s : simpl never.

(** [utf8.ValidString]. *)
Fixpoint validFrom (skip : nat) (s : string) : bool :=
  match s with
  | EmptyString => true
  | String c rest =>
      match skip with
      | S k => validFrom k rest
      | O =>
          match runeLength s with
          | O => false
          | S k => validFrom k rest
          end
      end
  end.

Definition ValidString (s : string) : bool := validFrom 0 s.

(** What [json.Marshal] produces for a struct, as a syntax tree: a JSON
    object that lists its members in the order of the struct's fields, under
    the names of their json tags.  [JString s] is the JSON string whose text
    is [s] (how the encoder escapes it does not matter here); [JTime t] is
    the JSON string that holds the RFC 3339 text of [t], which is how a
    [time.Time] member is encoded. *)
Inductive JSONValue : Type :=
| JString (s : string)
| JTime (t : Time).

Definition JSONObject : Type := list (string * JSONValue).

Definition MarshalMessage (m : Message.t) : JSONObject :=
  [ ("username", JString (replaceInvalidUTF8 (Message.Username m)));
    ("message", JString (replaceInvalidUTF8 (Message.Message m)));
    ("timeSent", JTime (Message.TimeSent m)) ].

Definition MarshalPing (p : Ping.t) : JSONObject :=
  [ ("username", JString (replaceInvalidUTF8 (Ping.Username p)));
    ("timeSent", JTime (Ping.TimeSent p)) ].

(** A call of [http.Client], with what the code hands to it: [Get url] or
    [Post url contentType body].  What the client then puts on the wire is
    its own doing and is not modelled: nothing when the URL does not parse,
    one request as a rule, several when it follows redirects. *)
Inductive Method : Type := GET | POST.

Record Request : Type := mkRequest
  { reqMethod : Method;
    reqURL : string;
    reqContentType : string;
    reqBody : option JSONObject }.

Record Response : Type := mkResponse
  { StatusCode : Z;
    Body : string }.

(** The pair [(resp, err)] an [http.Client] call returns, each of the two
    nil or not.  When the call fails (the URL does not parse, nobody
    listens, the time is up) [err] is set and [resp] is nil; when the client
    gives up on a chain of redirects both are set. *)
Record RoundTrip : Type := mkRoundTrip
  { rtResp : option Response;
    rtErr : option string }.

Definition TransportError (err : string) : RoundTrip :=
  mkRoundTrip None (Some err).

Definition Answer (resp : Response) : RoundTrip :=
  mkRoundTrip (Some resp) None.

(** The inbound request a handler receives.  [ParseForm] either fails or
    fills [r.Form], a [map[string][]string], kept here as an association
    list. *)
Definition Values : Type := list (string * list string).

Inductive FormResult : Type :=
| FormError (err : string)
| FormOK (form : Values).

Record InboundRequest : Type := mkInbound
  { ParseForm : FormResult }.

(** [Values.Get]: the first value stored under the key, the empty string when
    there is none. *)
Fixpoint lookupValues (v : Values) (key : string) : list string :=
  match v with
  | [] => []
  | (k, vs) :: rest => if String.eqb k key then vs else lookupValues rest key
  end.

Definition Get (v : Values) (key : string) : string :=
  match lookupValues v key with
  | [] => EmptyString
  | s :: _ => s
  end.

(** What a handler leaves in its [http.ResponseWriter]: a page written with
    [fmt.Fprintf(w, "%s", content)], or [http.Redirect(w, r, url, code)]. *)
Inductive Reply : Type :=
| Page (content : string)
| Redirect (url : string) (code : Z).

(** A logging call, kept as its level, format and arguments; [LStdout] is
    for [fmt.Println] and [fmt.Printf]. *)
Inductive LogLevel : Type := LPrint | LInfo | LFatal | LStdout.

Inductive LogArg : Type :=
| AString (s : string)
| AInt (z : Z)
| AError (err : string)
| ATime (t : Time)
| APing (p : Ping.t)
| AConfig (c : ChatConfig).

Record LogEntry : Type := mkLog
  { logLevel : LogLevel;
    logFormat : string;
    logArgs : list LogArg }.

(* ------------------------------------------------------------------ *)
(** ** The outside world and the imported packages *)

(** The process state: the package-level variables [cfg], [envVarUserName]
    and [envVarConfigFileName], the routes registered with [http.HandleFunc],
    and two histories, the calls made to the HTTP client and the log (both
    oldest first). *)
Inductive HandlerName : Type :=
| HIndex | HGetMessages | HGetUsers | HSendMessage.

Record State : Type := mkState
  { cfg : option ChatConfig;
    envVarUserName : string;
    envVarConfigFileName : string;
    routes : list (string * HandlerName);
    calls : list Request;
    logged : list LogEntry }.

(** The pair [(data, err)] that [os.ReadFile] returns. *)
Inductive ReadResult : Type :=
| ReadError (err : string)
| ReadOK (data : string).

(** The world outside the process: the environment variables, the file
    system, the backend and the clock.  [backend] is the backend as the code
    sees it, through the HTTP client: what a call of the client hands back.
    The same call may end differently each time, so the outcome depends on
    the calls made before.  [now] is the clock reading, which may depend on
    how far the run is. *)
Record Env : Type := mkEnv
  { Getenv : string -> string;
    ReadFile : string -> ReadResult;
    backend : list Request -> Request -> RoundTrip;
    now : State -> Time }.

(** What the imported packages compute.  A decoder returns what it left in
    its target together with its error, if any: [json.Unmarshal(data, &c)]
    starts from the value [c] already holds; [Decode(&messages)] and
    [Decode(&users)] start from a nil slice.  A [[]*User] may hold nil
    pointers, hence the [option].  [TimeString] is [time.Time.String], which
    the verb [%s] calls. *)
Record Lib : Type := mkLib
  { UnmarshalConfig : string -> ChatConfig -> ChatConfig * option string;
    DecodeMessages : string -> list Message.t * option string;
    DecodeUsers : string -> list (option User.t) * option string;
    TimeString : Time -> string }.

(* ------------------------------------------------------------------ *)
(** ** The effect monad *)

(** How a call ends: it returns, it panics (a run-time error unwinds the
    stack), or it ends the process ([log.Fatal], which calls [os.Exit(1)]). *)
Inductive Outcome (A : Type) : Type :=
| Return (a : A)
| Panic (reason : string)
| Exit (code : Z).

Arguments Return {A} a.
Arguments Panic {A} reason.
Arguments Exit {A} code.

Definition M (A : Type) : Type := State -> Outcome A * State.

Definition ret {A : Type} (a : A) : M A := fun st => (Return a, st).

Definition bind {A B : Type} (m : M A) (k : A -> M B) : M B :=
  fun st =>
    match m st with
    | (Return a, st') => k a st'
    | (Panic reason, st') => (Panic reason, st')
    | (Exit code, st') => (Exit code, st')
    end.

Declare Scope go_scope.
Delimit Scope go_scope with go.
Notation "x <- m ;; k" := (bind m (fun x => k))
  (at level 61, m at next level, right associativity) : go_scope.
Notation "m ;; k" := (bind m (fun _ => k))
  (at level 61, right associativity) : go_scope.
Local Open Scope go_scope.

Definition nilDereference : string :=
  "runtime error: invalid memory address or nil pointer dereference".

Definition panic {A : Type} (reason : string) : M A :=
  fun st => (Panic reason, st).

Definition osExit {A : Type} (code : Z) : M A :=
  fun st => (Exit code, st).

Definition getState : M State := fun st => (Return st, st).

Definition appendLog (e : LogEntry) : M unit :=
  fun st =>
    (Return tt,
     mkState (cfg st) (envVarUserName st) (envVarConfigFileName st)
             (routes st) (calls st) (logged st ++ [e])).

Definition appendCall (r : Request) : M unit :=
  fun st =>
    (Return tt,
     mkState (cfg st) (envVarUserName st) (envVarConfigFileName st)
             (routes st) (calls st ++ [r]) (logged st)).

Definition setCfg (c : option ChatConfig) : M unit :=
  fun st =>
    (Return tt,
     mkState c (envVarUserName st) (envVarConfigFileName st)
             (routes st) (calls st) (logged st)).

Definition HandleFunc (pattern : string) (h : HandlerName) : M unit :=
  fun st =>
    (Return tt,
     mkState (cfg st) (envVarUserName st) (envVarConfigFileName st)
             (routes st ++ [(pattern, h)]) (calls st) (logged st)).

(** Logging.  [logFatal] writes its entry and then ends the process with
    status 1. *)
Definition logPrint (format : string) (args : list LogArg) : M unit :=
  appendLog (mkLog LPrint format args).

Definition logInfo (format : string) (args : list LogArg) : M unit :=
  appendLog (mkLog LInfo format args).

Definition logFatal {A : Type} (format : string) (args : list LogArg) : M A :=
  appendLog (mkLog LFatal format args) ;; osExit 1.

(** Reading through a pointer: [cfg.Field] where [cfg] is a [*ChatConfig],
    [resp.Body] where [resp] is a [*http.Response], [user.Field] where [user]
    is a [*User].  A nil pointer panics. *)
Definition derefCfg : M ChatConfig :=
  fun st =>
    match cfg st with
    | Some c => (Return c, st)
    | None => (Panic nilDereference, st)
    end.

Definition derefResp (resp : option Response) : M Response :=
  match resp with
  | Some r => ret r
  | None => panic nilDereference
  end.

Definition derefUser (u : option User.t) : M User.t :=
  match u with
  | Some user => ret user
  | None => panic nilDereference
  end.

(** [%d] on an [int]. *)
Definition itoa (z : Z) : string := NilZero.string_of_int (Z.to_int z).

(** [strings.Join(elems, sep)]. *)
Fixpoint Join (elems : list string) (sep : string) : string :=
  match elems with
  | [] => EmptyString
  | [e] => e
  | e :: rest => e ++ sep ++ Join rest sep
  end.

(* ------------------------------------------------------------------ *)
(** ** Calls into the outside world *)

Section Runtime.

Variable env : Env.

(** [httpClient.Get(url)] and [httpClient.Post(url, contentType, body)]:
    the call joins the history of calls and the client hands back its
    [(resp, err)]. *)
Definition roundTrip (r : Request) : M RoundTrip :=
  fun st => bind (appendCall r) (fun _ => ret (backend env (calls st) r)) st.

Definition httpGet (url : string) : M RoundTrip :=
  roundTrip (mkRequest GET url EmptyString None).

Definition httpPost (url contentType : string) (body : JSONObject)
  : M RoundTrip :=
  roundTrip (mkRequest POST url contentType (Some body)).

(** [time.Now()]. *)
Definition timeNow : M Time := fun st => (Return (now env st), st).

End Runtime.

(** [fmt.Sprintf("http://%s:%d" + path, host, port)]. *)
Definition backendURL (host : string) (port : Z) (path : string) : string :=
  "http://" ++ host ++ ":" ++ itoa port ++ path.

(** [fmt.Sprintf("(%d)[%s] %s", idx, a, b)]. *)
Definition formatEntry (idx : Z) (a b : string) : string :=
  "(" ++ itoa idx ++ ")[" ++ a ++ "] " ++ b.

(* ------------------------------------------------------------------ *)
(** ** First variant *)

Module V1.

Section WithWorld.

Variable lib : Lib.
Variable env : Env.

Definition readConfig (fileName : string) : M (option ChatConfig) :=
  let config :=
    mkChatConfig defaultHTTPChatServer defaultHTTPChatPort
                 defaultWebServerPortNumber in
  match ReadFile env fileName with
  | ReadError err =>
      logFatal "Failed to read config file [%s]: %s"
               [AString fileName; AError err]
  | ReadOK data =>
      match UnmarshalConfig lib data config with
      | (_, Some err) =>
          appendLog (mkLog LStdout "Failed to parse config file:" [AError err]) ;;
          ret None
      | (config, None) =>
          let config :=
            if ChatServerPort config =? 0
            then mkChatConfig (ChatServerFQDN config) defaultHTTPChatPort
                              (WebServerPortNumber config)
            else config in
          let config :=
            if String.eqb (ChatServerFQDN config) EmptyString
            then mkChatConfig defaultHTTPChatServer (ChatServerPort config)
                              (WebServerPortNumber config)
            else config in
          let config :=
            if WebServerPortNumber config =? 0
            then mkChatConfig (ChatServerFQDN config) (ChatServerPort config)
                              defaultWebServerPortNumber
            else config in
          appendLog (mkLog LStdout ("Config: %+v" ++ nl) [AConfig config]) ;;
          ret (Some config)
      end
  end.

Definition sendMessage (message : string) : M unit :=
  logInfo "Sending message: %s" [AString message] ;;
  st <- getState ;;
  let jsonBytes :=
    MarshalMessage (Message.mk (envVarUserName st) message zeroTime) in
  c <- derefCfg ;;
  let url := backendURL (ChatServerFQDN c) (ChatServerPort c) "/messages" in
  rt <- httpPost env url "application/json" jsonBytes ;;
  match rtErr rt with
  | Some err => logInfo "Failed to post message: %v" [AError err]
  | None => ret tt
  end ;;
  resp <- derefResp (rtResp rt) ;;
  (if StatusCode resp =? StatusCreated
   then ret tt
   else logInfo "Failed to post message, status code: %d"
                [AInt (StatusCode resp)]).

Definition getMessages : M (list Message.t) :=
  logPrint "Getting the list of messages..." [] ;;
  c <- derefCfg ;;
  let url := backendURL (ChatServerFQDN c) (ChatServerPort c) "/messages" in
  rt <- httpGet env url ;;
  match rtErr rt with
  | Some err => logInfo "Failed to get messages: %v" [AError err]
  | None => ret tt
  end ;;
  resp <- derefResp (rtResp rt) ;;
  (if StatusCode resp =? StatusOK
   then ret tt
   else logInfo "Failed to get messages, status code: %d"
                [AInt (StatusCode resp)]) ;;
  let (messages, err) := DecodeMessages lib (Body resp) in
  match err with
  | Some e => logInfo "Failed to decode messages: %v" [AError e]
  | None => ret tt
  end ;;
  ret messages.

Definition sendPing : M unit :=
  st <- getState ;;
  let ping := Ping.mk (envVarUserName st) zeroTime in
  let jsonBytes := MarshalPing ping in
  c <- derefCfg ;;
  let url := backendURL (ChatServerFQDN c) (ChatServerPort c) "/ping" in
  rt <- httpPost env url "application/json" jsonBytes ;;
  match rtErr rt with
  | Some err => logInfo "Failed to send a ping: %v" [AError err]
  | None => ret tt
  end ;;
  resp <- derefResp (rtResp rt) ;;
  (if StatusCode resp =? StatusCreated
   then ret tt
   else logInfo "Failed to send ping, status code: %d"
                [AInt (StatusCode resp)]) ;;
  logInfo "Sent a PING: %s" [APing ping].

Definition getActiveUsers : M (list (option User.t)) :=
  c <- derefCfg ;;
  let url := backendURL (ChatServerFQDN c) (ChatServerPort c) "/users" in
  rt <- httpGet env url ;;
  match rtErr rt with
  | Some err => logInfo "Failed to get active users: %v" [AError err]
  | None => ret tt
  end ;;
  resp <- derefResp (rtResp rt) ;;
  (if StatusCode resp =? StatusOK
   then ret tt
   else logInfo "Failed to get active users, status code: %d"
                [AInt (StatusCode resp)]) ;;
  let (users, err) := DecodeUsers lib (Body resp) in
  match err with
  | Some e => logInfo "Failed to decode active users: %v" [AError e]
  | None => ret tt
  end ;;
  ret users.

Definition handlerSendMessage (r : InboundRequest) : M Reply :=
  match ParseForm r with
  | FormError err =>
      logInfo "Error: %s" [AError err] ;;
      ret (Redirect "/" 302)
  | FormOK form =>
      let message := Get form formKeyMessage in
      sendMessage message ;;
      ret (Redirect "/" 302)
  end.

(** The loop of [handlerGetMessages]: [idx] counts from where the range
    stands, [messages] is the slice the loop appends to. *)
Fixpoint rangeMessages (idx : Z) (rest : list Message.t)
         (messages : list string) : list string :=
  match rest with
  | [] => messages
  | msg :: rest' =>
      rangeMessages (idx + 1) rest'
        (messages ++
         [formatEntry idx (Message.Username msg) (Message.Message msg)])
  end.

Definition messagesHead : string :=
  "<!doctype html><html itemscope=" ++ dq ++ dq ++ " itemtype=" ++ dq ++
  "http://schema.org/WebPage" ++ dq ++ " lang=" ++ dq ++ "en" ++ dq ++
  ">" ++ nl ++ tab ++
  "<head><title>smirc: messages</title><meta http-equiv=" ++ dq ++
  "refresh" ++ dq ++ " content=" ++ dq ++ "1" ++ dq ++ "></head>" ++ nl ++
  "    <body>".

Definition handlerGetMessages (r : InboundRequest) : M Reply :=
  fetched <- getMessages ;;
  let messages := rangeMessages 0 fetched [] in
  let content :=
    messagesHead ++ Join messages "<br/>" ++ "</body></html>" in
  ret (Page content).

(** The loop of [handlerGetUsers]; [user.LastPing] reads through the
    pointer. *)
Fixpoint rangeUsers (idx : Z) (rest : list (option User.t))
         (users : list string) : M (list string) :=
  match rest with
  | [] => ret users
  | u :: rest' =>
      user <- derefUser u ;;
      rangeUsers (idx + 1) rest'
        (users ++
         [formatEntry idx (TimeString lib (User.LastPing user))
                      (User.Username user)])
  end.

Definition usersHead : string :=
  "<!doctype html><html itemscope=" ++ dq ++ dq ++ " itemtype=" ++ dq ++
  "http://schema.org/WebPage" ++ dq ++ " lang=" ++ dq ++ "en" ++ dq ++
  ">" ++ nl ++ tab ++
  "<head><title>smirc: users</title><meta http-equiv=" ++ dq ++
  "refresh" ++ dq ++ " content=" ++ dq ++ "5" ++ dq ++ "></head>" ++ nl ++
  "    <body><strong>Users:</strong><br/> ".

Definition handlerGetUsers (r : InboundRequest) : M Reply :=
  fetched <- getActiveUsers ;;
  users <- rangeUsers 0 fetched [] ;;
  let content := usersHead ++ Join users "<br/>" ++ "</body></html>" in
  ret (Page content).

Definition indexContent : string :=
  "<!doctype html><html itemscope=" ++ dq ++ dq ++ " itemtype=" ++ dq ++
  "http://schema.org/WebPage" ++ dq ++ " lang=" ++ dq ++ "en" ++ dq ++
  ">" ++ nl ++ tab ++
  "<head><title>smirc is awesome</title></head><body>" ++ nl ++
  "      <table><tr><td>" ++ nl ++ "      <iframe marginwidth=" ++ dq ++
  "0" ++ dq ++ " marginheight=" ++ dq ++ "0" ++ dq ++ " width=" ++ dq ++
  "480" ++ dq ++ " height=" ++ dq ++ "640" ++ dq ++ " scrolling=" ++ dq ++
  "yes" ++ dq ++ " frameborder=0 src=" ++ dq
  ++ endPointGetMessages ++
  dq ++ ">" ++ nl ++ "      </iframe>" ++ nl ++ "      </td><td>" ++ nl ++
  "      <iframe marginwidth=" ++ dq ++ "0" ++ dq ++ " marginheight=" ++
  dq ++ "0" ++ dq ++ " width=" ++ dq ++ "480" ++ dq ++ " height=" ++ dq ++
  "640" ++ dq ++ " scrolling=" ++ dq ++ "yes" ++ dq ++
  " frameborder=0 src=" ++ dq
  ++ endPointGetUsers ++
  dq ++ ">" ++ nl ++ "      </iframe>" ++ nl ++
  "      </td></tr></table>" ++ nl ++ "      <form action=" ++ dq
  ++ endPointSendMessage ++
  dq ++ ">" ++ nl ++ "        <input type=" ++ dq ++ "text" ++ dq ++
  " id=" ++ dq
  ++ formKeyMessage ++
  dq ++ " name=" ++ dq
  ++ formKeyMessage ++
  dq ++ " />" ++ nl ++ "        <input type=" ++ dq ++ "submit" ++ dq ++
  " value=" ++ dq ++ "Send" ++ dq ++ " />" ++ nl ++
  "      </form></body></html>".

Definition handlerIndex (r : InboundRequest) : M Reply :=
  ret (Page indexContent).

(** The first loop of [main]: every required variable must be set. *)
Fixpoint requireEnv (keys : list string) : M unit :=
  match keys with
  | [] => ret tt
  | key :: keys' =>
      (if String.eqb (Getenv env key) EmptyString
       then logFatal "Environment variable %s is required" [AString key]
       else ret tt) ;;
      requireEnv keys'
  end.

(** [main] up to the point where it starts to listen: the environment
    check, the one assignment to [cfg], the four routes, and the log line
    that reads the configuration back.  (Creating the ticker, the channel
    and the goroutine changes nothing that is modelled.) *)
Definition startup : M unit :=
  requireEnv [envVarUserNameKey; envVarConfigFileNameKey] ;;
  st <- getState ;;
  c <- readConfig (envVarConfigFileName st) ;;
  setCfg c ;;
  HandleFunc "/" HIndex ;;
  HandleFunc endPointGetMessages HGetMessages ;;
  HandleFunc endPointGetUsers HGetUsers ;;
  HandleFunc endPointSendMessage HSendMessage ;;
  st <- getState ;;
  c <- derefCfg ;;
  logInfo
    "Starting chat client for user %s; Listening on port %d; connecting to server %s on port %d"
    [AString (envVarUserName st); AInt (WebServerPortNumber c);
     AString (ChatServerFQDN c); AInt (ChatServerPort c)].

(** One turn of the goroutine's loop when the ticker fires. *)
Definition tick : M unit :=
  t <- timeNow env ;;
  logInfo "Tick at %+v" [ATime t] ;;
  t' <- timeNow env ;;
  logInfo "Send PING %+v..." [ATime t'] ;;
  sendPing.

Definition handler (h : HandlerName) : InboundRequest -> M Reply :=
  match h with
  | HIndex => handlerIndex
  | HGetMessages => handlerGetMessages
  | HGetUsers => handlerGetUsers
  | HSendMessage => handlerSendMessage
  end.

End WithWorld.

End V1.

(* ------------------------------------------------------------------ *)
(** ** The running process *)

(** Package initialisation: [cfg] is nil and the two [envVar...] variables
    hold what [os.Getenv] returns. *)
Definition initialState (env : Env) : State :=
  mkState None (Getenv env envVarUserNameKey)
          (Getenv env envVarConfigFileNameKey) [] [] [].

(** The default [http.ServeMux]: a pattern that does not end in a slash
    matches its path only, and the pattern ["/"] matches every path that no
    other pattern matches. *)
Fixpoint exactRoute (table : list (string * HandlerName)) (path : string)
  : option HandlerName :=
  match table with
  | [] => None
  | (pattern, h) :: rest =>
      if String.eqb pattern path then Some h else exactRoute rest path
  end.

Definition route (table : list (string * HandlerName)) (path : string)
  : option HandlerName :=
  match exactRoute table path with
  | Some h => Some h
  | None => exactRoute table "/"
  end.

(** What happens while the process listens: the ticker fires, or a request
    arrives that the mux hands to a handler, [path] being its path.  (A
    request whose path is not clean, such as two slashes in a row, is
    answered by the mux itself with a redirect and reaches no handler; it is
    no event here.) *)
Inductive Event : Type :=
| Tick
| Incoming (path : string) (r : InboundRequest).

(** A process runs until something ends it. *)
Inductive Process : Type :=
| Running (st : State)
| Crashed (st : State) (reason : string)
| Exited (st : State) (code : Z).

Definition stateOf (p : Process) : State :=
  match p with
  | Running st => st
  | Crashed st _ => st
  | Exited st _ => st
  end.

Section Serving.

Variable handler : HandlerName -> InboundRequest -> M Reply.
Variable tick : M unit.

(** A panic inside a handler is recovered by [net/http], which drops the
    connection and keeps serving; a panic in the heartbeat goroutine ends the
    process; [os.Exit] ends it wherever it is called. *)
Definition step (ev : Event) (p : Process) : Process :=
  match p with
  | Running st =>
      match ev with
      | Tick =>
          match tick st with
          | (Return _, st') => Running st'
          | (Panic reason, st') => Crashed st' reason
          | (Exit code, st') => Exited st' code
          end
      | Incoming path r =>
          match route (routes st) path with
          | None => Running st
          | Some h =>
              match handler h r st with
              | (Return _, st') => Running st'
              | (Panic _, st') => Running st'
              | (Exit code, st') => Exited st' code
              end
          end
      end
  | _ => p
  end.

Definition run (evs : list Event) (p : Process) : Process :=
  fold_left (fun p ev => step ev p) evs p.

End Serving.

(* ------------------------------------------------------------------ *)
(** ** Second variant *)

(** This variant logs with the standard [log] package: [log.Fatalf] writes
    its line and ends the process.  Its [readConfig] and its URLs name the
    remote port [Port]; the struct declares that field [ChatServerPort]. *)
Module V2.

Section WithWorld.

Variable lib : Lib.
Variable env : Env.

Definition readConfig (fileName : string) : M (option ChatConfig) :=
  let config := mkChatConfig EmptyString 0 0 in
  match ReadFile env fileName with
  | ReadError err =>
      logFatal "Failed to read config file [%s]: %s"
               [AString fileName; AError err]
  | ReadOK data =>
      match UnmarshalConfig lib data config with
      | (_, Some err) =>
          appendLog (mkLog LStdout "Failed to parse config file:" [AError err]) ;;
          ret None
      | (config, None) =>
          let config :=
            if ChatServerPort config =? 0
            then mkChatConfig (ChatServerFQDN config) defaultHTTPChatPort
                              (WebServerPortNumber config)
            else config in
          let config :=
            if String.eqb (ChatServerFQDN config) EmptyString
            then mkChatConfig defaultHTTPChatServer (ChatServerPort config)
                              (WebServerPortNumber config)
            else config in
          let config :=
            if WebServerPortNumber config =? 0
            then mkChatConfig (ChatServerFQDN config) (ChatServerPort config)
                              defaultWebServerPortNumber
            else config in
          appendLog (mkLog LStdout ("Config: %+v" ++ nl) [AConfig config]) ;;
          ret (Some config)
      end
  end.

Definition sendMessage (message : string) : M unit :=
  logPrint "Sending message: %s" [AString message] ;;
  st <- getState ;;
  let jsonBytes :=
    MarshalMessage (Message.mk (envVarUserName st) message zeroTime) in
  c <- derefCfg ;;
  let url := backendURL (ChatServerFQDN c) (ChatServerPort c) "/messages" in
  rt <- httpPost env url "application/json" jsonBytes ;;
  match rtErr rt with
  | Some err => logFatal "Failed to post message: %v" [AError err]
  | None => ret tt
  end ;;
  resp <- derefResp (rtResp rt) ;;
  (if StatusCode resp =? StatusCreated
   then ret tt
   else logFatal "Failed to post message, status code: %d"
                 [AInt (StatusCode resp)]).

Definition getMessages : M (list Message.t) :=
  logPrint "Getting the list of messages..." [] ;;
  c <- derefCfg ;;
  let url := backendURL (ChatServerFQDN c) (ChatServerPort c) "/messages" in
  rt <- httpGet env url ;;
  match rtErr rt with
  | Some err => logFatal "Failed to get messages: %v" [AError err]
  | None => ret tt
  end ;;
  resp <- derefResp (rtResp rt) ;;
  (if StatusCode resp =? StatusOK
   then ret tt
   else logFatal "Failed to get messages, status code: %d"
                 [AInt (StatusCode resp)]) ;;
  let (messages, err) := DecodeMessages lib (Body resp) in
  match err with
  | Some e => logFatal "Failed to decode messages: %v" [AError e]
  | None => ret tt
  end ;;
  ret messages.

Definition sendPing : M unit :=
  logPrint "Sending a PING message" [] ;;
  let ping := Ping.mk "Alice" zeroTime in
  let jsonBytes := MarshalPing ping in
  c <- derefCfg ;;
  let url := backendURL (ChatServerFQDN c) (ChatServerPort c) "/ping" in
  rt <- httpPost env url "application/json" jsonBytes ;;
  match rtErr rt with
  | Some err => logFatal "Failed to send a ping: %v" [AError err]
  | None => ret tt
  end ;;
  resp <- derefResp (rtResp rt) ;;
  (if StatusCode resp =? StatusCreated
   then ret tt
   else logFatal "Failed to send ping, status code: %d"
                 [AInt (StatusCode resp)]).

Definition getActiveUsers : M (list (option User.t)) :=
  c <- derefCfg ;;
  let url := backendURL (ChatServerFQDN c) (ChatServerPort c) "/users" in
  rt <- httpGet env url ;;
  match rtErr rt with
  | Some err => logFatal "Failed to get active users: %v" [AError err]
  | None => ret tt
  end ;;
  resp <- derefResp (rtResp rt) ;;
  (if StatusCode resp =? StatusOK
   then ret tt
   else logFatal "Failed to get active users, status code: %d"
                 [AInt (StatusCode resp)]) ;;
  let (users, err) := DecodeUsers lib (Body resp) in
  match err with
  | Some e => logFatal "Failed to decode active users: %v" [AError e]
  | None => ret tt
  end ;;
  ret users.

Definition handlerSendMessage (r : InboundRequest) : M Reply :=
  match ParseForm r with
  | FormError err =>
      logPrint "Error: %s" [AError err] ;;
      ret (Redirect "/" 302)
  | FormOK form =>
      let message := Get form formKeyMessage in
      sendMessage message ;;
      ret (Redirect "/" 302)
  end.

Fixpoint rangeMessages (idx : Z) (rest : list Message.t)
         (messages : list string) : list string :=
  match rest with
  | [] => messages
  | msg :: rest' =>
      rangeMessages (idx + 1) rest'
        (messages ++
         [formatEntry idx (Message.Username msg) (Message.Message msg)])
  end.

Definition messagesHead : string :=
  "<!doctype html><html itemscope=" ++ dq ++ dq ++ " itemtype=" ++ dq ++
  "http://schema.org/WebPage" ++ dq ++ " lang=" ++ dq ++ "en" ++ dq ++
  ">" ++ nl ++ tab ++
  "<head><title>smirc: messages</title><meta http-equiv=" ++ dq ++
  "refresh" ++ dq ++ " content=" ++ dq ++ "1" ++ dq ++ "></head>" ++ nl ++
  "    <body>".

Definition handlerGetMessagesForChannel (r : InboundRequest) : M Reply :=
  fetched <- getMessages ;;
  let messages := rangeMessages 0 fetched [] in
  let content :=
    messagesHead ++ Join messages "<br/>" ++ "</body></html>" in
  ret (Page content).

Fixpoint rangeUsers (idx : Z) (rest : list (option User.t))
         (users : list string) : M (list string) :=
  match rest with
  | [] => ret users
  | u :: rest' =>
      user <- derefUser u ;;
      rangeUsers (idx + 1) rest'
        (users ++
         [formatEntry idx (TimeString lib (User.LastPing user))
                      (User.Username user)])
  end.

Definition usersHead : string :=
  "<!doctype html><html itemscope=" ++ dq ++ dq ++ " itemtype=" ++ dq ++
  "http://schema.org/WebPage" ++ dq ++ " lang=" ++ dq ++ "en" ++ dq ++
  ">" ++ nl ++ tab ++
  "<head><title>smirc: users</title><meta http-equiv=" ++ dq ++
  "refresh" ++ dq ++ " content=" ++ dq ++ "5" ++ dq ++ "></head>" ++ nl ++
  "    <body><strong>Users:</strong> ".

Definition handlerGetUsersForChannel (r : InboundRequest) : M Reply :=
  fetched <- getActiveUsers ;;
  users <- rangeUsers 0 fetched [] ;;
  let content := usersHead ++ Join users "<br/>" ++ "</body></html>" in
  ret (Page content).

Definition indexContent : string :=
  "<!doctype html><html itemscope=" ++ dq ++ dq ++ " itemtype=" ++ dq ++
  "http://schema.org/WebPage" ++ dq ++ " lang=" ++ dq ++ "en" ++ dq ++
  ">" ++ nl ++ tab ++
  "<head><title>smirc is awesome</title></head><body>" ++ nl ++
  "      <iframe marginwidth=" ++ dq ++ "0" ++ dq ++ " marginheight=" ++
  dq ++ "0" ++ dq ++ " width=" ++ dq ++ "500" ++ dq ++ " height=" ++ dq ++
  "500" ++ dq ++ " scrolling=" ++ dq ++ "no" ++ dq ++
  " frameborder=0 src=" ++ dq
  ++ endPointGetMessages ++
  dq ++ ">" ++ nl ++ "      </iframe>" ++ nl ++
  "      <iframe marginwidth=" ++ dq ++ "0" ++ dq ++ " marginheight=" ++
  dq ++ "0" ++ dq ++ " width=" ++ dq ++ "500" ++ dq ++ " height=" ++ dq ++
  "25" ++ dq ++ " scrolling=" ++ dq ++ "no" ++ dq ++
  " frameborder=0 src=" ++ dq
  ++ endPointGetUsers ++
  dq ++ ">" ++ nl ++ "      </iframe>" ++ nl ++ "      <form action=" ++ dq
  ++ endPointSendMessage ++
  dq ++ ">" ++ nl ++ "        <input type=" ++ dq ++ "text" ++ dq ++
  " id=" ++ dq
  ++ formKeyMessage ++
  dq ++ " name=" ++ dq
  ++ formKeyMessage ++
  dq ++ " />" ++ nl ++ "        <input type=" ++ dq ++ "submit" ++ dq ++
  " value=" ++ dq ++ "Send" ++ dq ++ " />" ++ nl ++
  "      </form></body></html>".

Definition handlerIndex (r : InboundRequest) : M Reply :=
  ret (Page indexContent).

Fixpoint requireEnv (keys : list string) : M unit :=
  match keys with
  | [] => ret tt
  | key :: keys' =>
      (if String.eqb (Getenv env key) EmptyString
       then logFatal "Environment variable %s is required" [AString key]
       else ret tt) ;;
      requireEnv keys'
  end.

(** [main] up to the point where it listens; the last step reads
    [cfg.WebServerPortNumber] for the listening address. *)
Definition startup : M unit :=
  requireEnv [envVarUserNameKey; envVarConfigFileNameKey] ;;
  st <- getState ;;
  c <- readConfig (envVarConfigFileName st) ;;
  setCfg c ;;
  HandleFunc "/" HIndex ;;
  HandleFunc endPointGetMessages HGetMessages ;;
  HandleFunc endPointGetUsers HGetUsers ;;
  HandleFunc endPointSendMessage HSendMessage ;;
  c <- derefCfg ;;
  ret tt.

(** One turn of the goroutine's loop ([time.Sleep] changes nothing that is
    modelled). *)
Definition tick : M unit := sendPing.

Definition handler (h : HandlerName) : InboundRequest -> M Reply :=
  match h with
  | HIndex => handlerIndex
  | HGetMessages => handlerGetMessagesForChannel
  | HGetUsers => handlerGetUsersForChannel
  | HSendMessage => handlerSendMessage
  end.

End WithWorld.

End V2.

(* ------------------------------------------------------------------ *)
(** ** Concrete worlds *)

(** Worlds to run the client in.  The user name and the file name are the
    ones of the Makefile's [run] target.  The library double knows three
    documents by their text and rejects every other one; it prints the zero
    instant the way [time.Time.String] does and no other instant. *)
Module Fixture.

Definition configDoc : string :=
  "{" ++ dq ++ "chat-server-port" ++ dq ++ ": 9090}".

Definition messagesDoc : string :=
  "[{" ++ dq ++ "username" ++ dq ++ ":" ++ dq ++ "bob" ++ dq ++ "," ++
  dq ++ "message" ++ dq ++ ":" ++ dq ++ "hi" ++ dq ++ "},{" ++
  dq ++ "username" ++ dq ++ ":" ++ dq ++ "eve" ++ dq ++ "," ++
  dq ++ "message" ++ dq ++ ":" ++ dq ++ "yo" ++ dq ++ "},{" ++
  dq ++ "username" ++ dq ++ ":" ++ dq ++ "bob" ++ dq ++ "," ++
  dq ++ "message" ++ dq ++ ":" ++ dq ++ "hi" ++ dq ++ "}]".

Definition usersDoc : string :=
  "[{" ++ dq ++ "username" ++ dq ++ ":" ++ dq ++ "alice" ++ dq ++ "}]".

Definition syntaxError : string :=
  "invalid character 'x' looking for beginning of value".

Definition lib : Lib :=
  mkLib
    (fun data c =>
       if String.eqb data configDoc
       then (mkChatConfig (ChatServerFQDN c) 9090 (WebServerPortNumber c), None)
       else (c, Some syntaxError))
    (fun body =>
       if String.eqb body messagesDoc
       then ([Message.mk "bob" "hi" zeroTime;
              Message.mk "eve" "yo" zeroTime;
              Message.mk "bob" "hi" zeroTime], None)
       else ([], Some syntaxError))
    (fun body =>
       if String.eqb body usersDoc
       then ([Some (User.mk "alice" zeroTime)], None)
       else ([], Some syntaxError))
    (fun t =>
       if t =? zeroTime then "0001-01-01 00:00:00 +0000 UTC"
       else EmptyString).

Definition getenv (key : string) : string :=
  if String.eqb key envVarUserNameKey then "user1"
  else if String.eqb key envVarConfigFileNameKey then "client.cfg"
  else EmptyString.

Definition readFile (fileName : string) : ReadResult :=
  if String.eqb fileName "client.cfg" then ReadOK configDoc
  else ReadError "open: no such file or directory".

(** A backend that serves the two documents and accepts every post. *)
Definition chatServer (history : list Request) (r : Request) : RoundTrip :=
  match reqMethod r with
  | POST => Answer (mkResponse 201 EmptyString)
  | GET =>
      if String.eqb (reqURL r) "http://chat.server.net:9090/messages"
      then Answer (mkResponse 200 messagesDoc)
      else if String.eqb (reqURL r) "http://chat.server.net:9090/users"
      then Answer (mkResponse 200 usersDoc)
      else Answer (mkResponse 404 "404 page not found")
  end.

(** A backend that nobody listens on. *)
Definition noServer (history : list Request) (r : Request) : RoundTrip :=
  TransportError "dial tcp: connect: connection refused".

(** A backend that answers every request with status 500 and, as its body,
    the message list. *)
Definition brokenServer (history : list Request) (r : Request) : RoundTrip :=
  Answer (mkResponse 500 messagesDoc).

(** A clock stopped at some instant of the year 2023. *)
Definition clock (st : State) : Time := 63837000000000000000.

Definition serving : Env := mkEnv getenv readFile chatServer clock.
Definition unreachable : Env := mkEnv getenv readFile noServer clock.
Definition broken : Env := mkEnv getenv readFile brokenServer clock.
Definition noConfigFile : Env :=
  mkEnv getenv (fun _ => ReadError "open: no such file or directory")
        chatServer clock.
Definition badConfigFile : Env :=
  mkEnv getenv (fun _ => ReadOK "not json") chatServer clock.

(** The state in which the first variant starts to listen. *)
Definition started : State :=
  Eval vm_compute in snd (V1.startup lib serving (initialState serving)).

Definition helloForm : InboundRequest :=
  mkInbound (FormOK [("message", ["hello"])]).

Definition emptyForm : InboundRequest := mkInbound (FormOK []).

End Fixture.

(* ------------------------------------------------------------------ *)
(** ** Worlds for the corner cases *)

(** A backend whose message list has an entry of the wrong type, so that the
    decoder reports an error and leaves what it decoded so far, and whose
    user list has a null entry, which decodes to a nil pointer; it answers
    every post with status 500.  And a process environment in which no
    variable is set. *)
Module Corner.

Definition mixedDoc : string :=
  "[{" ++ dq ++ "username" ++ dq ++ ":" ++ dq ++ "bob" ++ dq ++ "," ++
  dq ++ "message" ++ dq ++ ":" ++ dq ++ "hi" ++ dq ++ "},{" ++
  dq ++ "username" ++ dq ++ ":5}]".

Definition typeError : string :=
  "json: cannot unmarshal number into Go struct field Message.username of type string".

Definition nullUserDoc : string :=
  "[{" ++ dq ++ "username" ++ dq ++ ":" ++ dq ++ "alice" ++ dq ++ "},null]".

Definition lib : Lib :=
  mkLib
    (UnmarshalConfig Fixture.lib)
    (fun body =>
       if String.eqb body mixedDoc
       then ([Message.mk "bob" "hi" zeroTime;
              Message.mk EmptyString EmptyString zeroTime], Some typeError)
       else DecodeMessages Fixture.lib body)
    (fun body =>
       if String.eqb body nullUserDoc
       then ([Some (User.mk "alice" zeroTime); None], None)
       else DecodeUsers Fixture.lib body)
    (TimeString Fixture.lib).

Definition server (history : list Request) (r : Request) : RoundTrip :=
  match reqMethod r with
  | POST => Answer (mkResponse 500 "Internal Server Error")
  | GET =>
      if String.eqb (reqURL r) "http://chat.server.net:9090/messages"
      then Answer (mkResponse 200 mixedDoc)
      else Answer (mkResponse 200 nullUserDoc)
  end.

Definition world : Env :=
  mkEnv Fixture.getenv Fixture.readFile server Fixture.clock.

Definition noVariables : Env :=
  mkEnv (fun _ => EmptyString) Fixture.readFile Fixture.chatServer
        Fixture.clock.

End Corner.

(** A backend with three users online, one of them under a name that is
    taken twice.  Two of the entries carry the time of a ping, noon of
    March 1, 2023, and one carries none, which decodes to the zero instant;
    the library double prints these two instants as [time.Time.String]
    does. *)
Module Crowd.

Definition noon : Time := 63813268800000000000.

Definition usersDoc : string :=
  "[{" ++ dq ++ "username" ++ dq ++ ":" ++ dq ++ "alice" ++ dq ++ "," ++
  dq ++ "lastPing" ++ dq ++ ":" ++ dq ++ "2023-03-01T12:00:00Z" ++ dq ++
  "},{" ++ dq ++ "username" ++ dq ++ ":" ++ dq ++ "bob" ++ dq ++ "},{" ++
  dq ++ "username" ++ dq ++ ":" ++ dq ++ "alice" ++ dq ++ "," ++
  dq ++ "lastPing" ++ dq ++ ":" ++ dq ++ "2023-03-01T12:00:00Z" ++ dq ++
  "}]".

Definition users : list User.t :=
  [User.mk "alice" noon; User.mk "bob" zeroTime; User.mk "alice" noon].

Definition lib : Lib :=
  mkLib
    (UnmarshalConfig Fixture.lib)
    (DecodeMessages Fixture.lib)
    (fun body =>
       if String.eqb body usersDoc
       then (map Some users, None)
       else DecodeUsers Fixture.lib body)
    (fun t =>
       if t =? noon then "2023-03-01 12:00:00 +0000 UTC"
       else TimeString Fixture.lib t).

Definition server (history : list Request) (r : Request) : RoundTrip :=
  match reqMethod r with
  | POST => Answer (mkResponse 201 EmptyString)
  | GET =>
      if String.eqb (reqURL r) "http://chat.server.net:9090/users"
      then Answer (mkResponse 200 usersDoc)
      else Fixture.chatServer history r
  end.

Definition world : Env :=
  mkEnv Fixture.getenv Fixture.readFile server Fixture.clock.

End Crowd.

(** What [sendMessage] posts. *)
Definition messagePost (c : ChatConfig) (user message : string) : Request :=
  mkRequest POST
            (backendURL (ChatServerFQDN c) (ChatServerPort c) "/messages")
            "application/json"
            (Some (MarshalMessage (Message.mk user message zeroTime))).

(* ------------------------------------------------------------------ *)
(** ** The frame condition on the shared variables *)

(** A computation keeps the shared variables when, however it ends, [cfg]
    and [envVarUserName] hold what they held before. *)
Definition keepsShared {A : Type} (m : M A) : Prop :=
  forall st,
    cfg (snd (m st)) = cfg st /\
    envVarUserName (snd (m st)) = envVarUserName st.

(** A computation makes at most [n] calls of the HTTP client when the
    history of calls after it is the history before it followed by at most
    [n] more. *)
Definition callsAtMost {A : Type} (n : nat) (m : M A) : Prop :=
  forall st,
  exists added : list Request,
    calls (snd (m st)) = (calls st ++ added)%list /\ (length added <= n)%nat.

(* ================================================================== *)
(** * Properties *)

(** ** Formatting and joining on examples *)

Example itoa_examples :
  itoa 0 = "0" /\ itoa 7 = "7" /\ itoa 8080 = "8080" /\ itoa (-3) = "-3".
Proof. repeat split; reflexivity. Qed.

Example Join_examples :
  Join [] "<br/>" = EmptyString /\
  Join ["a"] "<br/>" = "a" /\
  Join ["a"; "b"; "c"] "<br/>" = "a<br/>b<br/>c".
Proof. repeat split; reflexivity. Qed.

Example Get_examples :
  Get [("message", ["hello"])] formKeyMessage = "hello" /\
  Get [("message", ["a"; "b"])] formKeyMessage = "a" /\
  Get [("other", ["x"])] formKeyMessage = EmptyString /\
  Get [] formKeyMessage = EmptyString.
Proof. repeat split; reflexivity. Qed.

(** ** The monad *)

Lemma bind_Return {A B : Type} (m : M A) (k : A -> M B) st a st' :
  m st = (Return a, st') -> bind m k st = k a st'.
Proof. intros H. unfold bind. rewrite H. reflexivity. Qed.

Lemma bind_Panic {A B : Type} (m : M A) (k : A -> M B) st reason st' :
  m st = (Panic reason, st') -> bind m k st = (Panic reason, st').
Proof. intros H. unfold bind. rewrite H. reflexivity. Qed.

Lemma bind_Exit {A B : Type} (m : M A) (k : A -> M B) st code st' :
  m st = (Exit code, st') -> bind m k st = (Exit code, st').
Proof. intros H. unfold bind. rewrite H. reflexivity. Qed.

(** ** The loop of the messages view *)

Lemma rangeMessages_length (rest : list Message.t) :
  forall idx acc,
    length (V1.rangeMessages idx rest acc) = (length acc + length rest)%nat.
Proof.
  induction rest as [|msg rest IH]; intros idx acc; simpl.
  - lia.
  - rewrite IH, length_app. simpl. lia.
Qed.

Lemma rangeMessages_keeps (rest : list Message.t) :
  forall idx acc i,
    (i < length acc)%nat ->
    nth_error (V1.rangeMessages idx rest acc) i = nth_error acc i.
Proof.
  induction rest as [|msg rest IH]; intros idx acc i Hi; simpl.
  - reflexivity.
  - rewrite IH by (rewrite length_app; simpl; lia).
    apply nth_error_app1. exact Hi.
Qed.

Lemma rangeMessages_nth (rest : list Message.t) :
  forall idx acc i msg,
    nth_error rest i = Some msg ->
    nth_error (V1.rangeMessages idx rest acc) (length acc + i) =
    Some (formatEntry (idx + Z.of_nat i)
                      (Message.Username msg) (Message.Message msg)).
Proof.
  induction rest as [|m rest IH]; intros idx acc i msg Hnth.
  - destruct i; discriminate.
  - destruct i as [|i]; simpl in *.
    + injection Hnth as ->.
      rewrite rangeMessages_keeps by (rewrite length_app; simpl; lia).
      rewrite Nat.add_0_r, Z.add_0_r, nth_error_app2 by lia.
      rewrite Nat.sub_diag. reflexivity.
    + specialize (IH (idx + 1)
                     (acc ++ [formatEntry idx (Message.Username m)
                                          (Message.Message m)])%list
                     i msg Hnth).
      rewrite length_app in IH. simpl in IH.
      replace (length acc + S i)%nat with (length acc + 1 + i)%nat by lia.
      rewrite IH. f_equal. f_equal. lia.
Qed.

(** C1. Whenever [getMessages] returns a list, [handlerGetMessages] answers
    with the page whose body is the lines joined by ["<br/>"], where there
    are as many lines as messages and line [i] (counted from 0) is
    [(i)[username] message] for the message at position [i] of the list:
    every entry once, in the order received, nothing dropped or merged. *)
Theorem handlerGetMessages_renders_in_order
        (lib : Lib) (env : Env) (r : InboundRequest)
        (st st' : State) (fetched : list Message.t) :
  V1.getMessages lib env st = (Return fetched, st') ->
  exists lines : list string,
    V1.handlerGetMessages lib env r st =
    (Return (Page (V1.messagesHead ++ Join lines "<br/>" ++ "</body></html>")),
     st') /\
    length lines = length fetched /\
    forall (i : nat) (msg : Message.t),
      nth_error fetched i = Some msg ->
      nth_error lines i =
      Some ("(" ++ itoa (Z.of_nat i) ++ ")[" ++ Message.Username msg ++ "] "
                ++ Message.Message msg).
Proof.
  intros Hget.
  exists (V1.rangeMessages 0 fetched []).
  split; [|split].
  - unfold V1.handlerGetMessages.
    rewrite (bind_Return _ _ _ _ _ Hget). reflexivity.
  - rewrite rangeMessages_length. reflexivity.
  - intros i msg Hnth.
    apply (rangeMessages_nth fetched 0 [] i msg) in Hnth.
    exact Hnth.
Qed.

(** The first variant, started and served by the backend of the fixture,
    shows the three messages, the repeated one twice. *)
Lemma handlerGetMessages_renders_in_order_witness :
  exists lines : list string,
    V1.handlerGetMessages Fixture.lib Fixture.serving Fixture.emptyForm
                          Fixture.started =
    (Return (Page (V1.messagesHead ++ Join lines "<br/>" ++ "</body></html>")),
     snd (V1.getMessages Fixture.lib Fixture.serving Fixture.started)) /\
    length lines = 3%nat /\
    forall (i : nat) (msg : Message.t),
      nth_error [Message.mk "bob" "hi" zeroTime;
                 Message.mk "eve" "yo" zeroTime;
                 Message.mk "bob" "hi" zeroTime] i = Some msg ->
      nth_error lines i =
      Some ("(" ++ itoa (Z.of_nat i) ++ ")[" ++ Message.Username msg ++ "] "
                ++ Message.Message msg).
Proof.
  refine (handlerGetMessages_renders_in_order
            Fixture.lib Fixture.serving Fixture.emptyForm Fixture.started
            (snd (V1.getMessages Fixture.lib Fixture.serving Fixture.started))
            [Message.mk "bob" "hi" zeroTime;
             Message.mk "eve" "yo" zeroTime;
             Message.mk "bob" "hi" zeroTime] _).
  vm_compute. reflexivity.
Defined.

Example handlerGetMessages_page :
  fst (V1.handlerGetMessages Fixture.lib Fixture.serving Fixture.emptyForm
                             Fixture.started) =
  Return (Page (V1.messagesHead ++
                "(0)[bob] hi<br/>(1)[eve] yo<br/>(2)[bob] hi" ++
                "</body></html>")).
Proof. vm_compute. reflexivity. Qed.

(** ** What the gateway does when the backend does not answer *)

Ltac run_call :=
  unfold V1.tick, V2.tick;
  unfold V1.sendMessage, V1.getMessages, V1.sendPing, V1.getActiveUsers,
         V2.sendMessage, V2.getMessages, V2.sendPing, V2.getActiveUsers,
         httpGet, httpPost, roundTrip, timeNow, logInfo, logPrint, logFatal,
         appendLog, appendCall, getState, derefCfg, derefResp, osExit,
         panic, bind, ret, MarshalMessage, MarshalPing;
  cbn [fst snd cfg calls logged envVarUserName envVarConfigFileName routes].

Lemma getMessages_transport_error (lib : Lib) (env : Env) (st : State)
      (c : ChatConfig) :
  cfg st = Some c ->
  (forall history r, exists err, backend env history r = TransportError err) ->
  fst (V1.getMessages lib env st) = Panic nilDereference.
Proof.
  intros Hcfg Hdown. run_call. rewrite Hcfg.
  match goal with
  | |- context [backend env ?h ?r] => destruct (Hdown h r) as [err ->]
  end.
  unfold TransportError. cbn. reflexivity.
Qed.

(** [sendMessage] returns exactly when the client hands back a response,
    whatever its status; with a nil response it panics. *)
Lemma sendMessage_outcome (env : Env) (message : string)
      (st : State) (c : ChatConfig) :
  cfg st = Some c ->
  fst (V1.sendMessage env message st) =
  match rtResp (backend env (calls st)
                        (messagePost c (envVarUserName st) message)) with
  | Some _ => Return tt
  | None => Panic nilDereference
  end.
Proof.
  intros Hcfg. run_call. rewrite Hcfg. unfold messagePost, MarshalMessage. cbn.
  match goal with
  | |- context [backend env ?h ?r] =>
      destruct (backend env h r) as [[resp|] [err|]]
  end; cbn; try reflexivity;
    destruct (StatusCode resp =? StatusCreated); reflexivity.
Qed.

(** The send-message handler redirects to the index when the form cannot be
    parsed and when the post comes back with a response, of status 201 or of
    any other; it panics when the post comes back without one. *)
Lemma handlerSendMessage_outcome
      (env : Env) (r : InboundRequest) (st : State) (c : ChatConfig) :
  cfg st = Some c ->
  fst (V1.handlerSendMessage env r st) =
  match ParseForm r with
  | FormError _ => Return (Redirect "/" 302)
  | FormOK form =>
      match rtResp (backend env (calls st)
                            (messagePost c (envVarUserName st)
                                         (Get form formKeyMessage))) with
      | Some _ => Return (Redirect "/" 302)
      | None => Panic nilDereference
      end
  end.
Proof.
  intros Hcfg. unfold V1.handlerSendMessage.
  destruct (ParseForm r) as [err|form].
  - reflexivity.
  - pose proof (sendMessage_outcome env (Get form formKeyMessage) st c Hcfg)
      as Hsend.
    unfold bind.
    destruct (V1.sendMessage env (Get form formKeyMessage) st)
      as [[[]|reason|code] st'];
      cbn [fst] in Hsend;
      destruct (rtResp _); try discriminate Hsend; try reflexivity.
    injection Hsend as ->. reflexivity.
Qed.

Example handlerSendMessage_examples :
  fst (V1.handlerSendMessage Fixture.serving Fixture.helloForm
                             Fixture.started) = Return (Redirect "/" 302) /\
  fst (V1.handlerSendMessage Fixture.broken Fixture.helloForm
                             Fixture.started) = Return (Redirect "/" 302) /\
  fst (V1.handlerSendMessage Fixture.unreachable
                             (mkInbound (FormError "invalid URL escape"))
                             Fixture.started) = Return (Redirect "/" 302) /\
  map reqBody
      (calls (snd (V1.handlerSendMessage Fixture.serving Fixture.emptyForm
                                        Fixture.started))) =
  [Some (MarshalMessage (Message.mk "user1" EmptyString zeroTime))].
Proof. repeat split; vm_compute; reflexivity. Qed.

(** C2. The first variant against a backend that cannot be reached:
    [getMessages] logs the transport error and then reads [resp.Body] through
    the nil [resp], so it panics and the messages view with it, instead of
    returning an empty list. Against a backend that answers with status 500
    and a well-formed list, [getMessages] logs the status and returns the
    three decoded messages, not an empty list. *)
Theorem getMessages_failure_is_not_empty :
  fst (V1.getMessages Fixture.lib Fixture.unreachable Fixture.started) =
  Panic nilDereference /\
  fst (V1.handlerGetMessages Fixture.lib Fixture.unreachable
                             Fixture.emptyForm Fixture.started) =
  Panic nilDereference /\
  fst (V1.getMessages Fixture.lib Fixture.broken Fixture.started) =
  Return [Message.mk "bob" "hi" zeroTime;
          Message.mk "eve" "yo" zeroTime;
          Message.mk "bob" "hi" zeroTime].
Proof. repeat split; vm_compute; reflexivity. Qed.

(** C3. The first variant against a backend that cannot be reached: the
    send-message handler reads the field, posts the message, and then
    panics inside [sendMessage] on the nil [resp]; no redirect is written. *)
Theorem handlerSendMessage_panics_when_unreachable :
  V1.handlerSendMessage Fixture.unreachable Fixture.helloForm Fixture.started
  = (Panic nilDereference,
     snd (V1.sendMessage Fixture.unreachable "hello" Fixture.started)) /\
  map reqURL
      (calls (snd (V1.sendMessage Fixture.unreachable "hello" Fixture.started)))
  = ["http://chat.server.net:9090/messages"].
Proof. split; vm_compute; reflexivity. Qed.

(** ** What is posted *)

(** Text that is valid UTF-8 is written as it is. *)
Lemma replaceInvalidFrom_valid (s : string) :
  forall skip, validFrom skip s = true -> replaceInvalidFrom skip s = s.
Proof.
  induction s as [|c rest IH]; intros skip Hvalid.
  - reflexivity.
  - cbn [validFrom replaceInvalidFrom] in *. destruct skip as [|k].
    + destruct (runeLength (String c rest)) as [|k]; [discriminate|].
      rewrite (IH k Hvalid). reflexivity.
    + rewrite (IH k Hvalid). reflexivity.
Qed.

Lemma replaceInvalidUTF8_valid (s : string) :
  ValidString s = true -> replaceInvalidUTF8 s = s.
Proof. apply replaceInvalidFrom_valid. Qed.

(** The encoder on examples: ASCII and a two-byte letter are kept, as is
    U+FFFD itself; a byte that starts nothing, a sequence cut short, an
    overlong form, a surrogate and a code point past U+10FFFF become one
    U+FFFD for each of their bytes. *)
Example replaceInvalidUTF8_examples :
  replaceInvalidUTF8 "hello" = "hello" /\
  replaceInvalidUTF8 (String "195" (String "169" EmptyString)) =
  String "195" (String "169" EmptyString) /\
  replaceInvalidUTF8 replacementChar = replacementChar /\
  replaceInvalidUTF8 (String "255" EmptyString) = replacementChar /\
  replaceInvalidUTF8 ("a" ++ String "255" "b") =
  "a" ++ replacementChar ++ "b" /\
  replaceInvalidUTF8 (String "226" (String "130" EmptyString)) =
  replacementChar ++ replacementChar /\
  replaceInvalidUTF8 (String "192" (String "128" EmptyString)) =
  replacementChar ++ replacementChar /\
  replaceInvalidUTF8 (String "237" (String "160" (String "128" EmptyString))) =
  replacementChar ++ replacementChar ++ replacementChar /\
  replaceInvalidUTF8
    (String "244" (String "144" (String "128" (String "128" EmptyString)))) =
  replacementChar ++ replacementChar ++ replacementChar ++ replacementChar.
Proof. repeat split; vm_compute; reflexivity. Qed.

(** C4. With the configuration loaded, [sendMessage] calls the HTTP client
    exactly once, however the call ends: a Post to the backend's
    [/messages] with content type [application/json], whose body carries the
    local identity as [username], the submitted text as [message], each as
    [json.Marshal] writes it (U+FFFD for every byte that is not part of a
    valid UTF-8 sequence), and the zero instant as [timeSent]: the client
    never sets the time.  A text that is valid UTF-8 is posted unchanged. *)
Theorem sendMessage_posts_one_message
        (env : Env) (message : string) (st : State) (c : ChatConfig) :
  cfg st = Some c ->
  calls (snd (V1.sendMessage env message st)) =
  (calls st ++
   [mkRequest POST
              ("http://" ++ ChatServerFQDN c ++ ":" ++ itoa (ChatServerPort c)
                         ++ "/messages")
              "application/json"
              (Some [("username",
                      JString (replaceInvalidUTF8 (envVarUserName st)));
                     ("message", JString (replaceInvalidUTF8 message));
                     ("timeSent", JTime zeroTime)])])%list /\
  (ValidString message = true -> replaceInvalidUTF8 message = message).
Proof.
  intros Hcfg. split; [|apply replaceInvalidUTF8_valid].
  run_call. rewrite Hcfg.
  match goal with
  | |- context [backend env ?h ?r] =>
      destruct (backend env h r) as [[resp|] [err|]]
  end; cbn; try reflexivity;
    destruct (StatusCode resp =? StatusCreated); reflexivity.
Qed.

Lemma sendMessage_posts_one_message_witness :
  calls (snd (V1.sendMessage Fixture.serving "hello" Fixture.started)) =
  [mkRequest POST "http://chat.server.net:9090/messages" "application/json"
             (Some [("username", JString "user1");
                    ("message", JString "hello");
                    ("timeSent", JTime zeroTime)])] /\
  replaceInvalidUTF8 "hello" = "hello".
Proof.
  destruct (sendMessage_posts_one_message
              Fixture.serving "hello" Fixture.started
              (mkChatConfig "chat.server.net" 9090 99) eq_refl)
    as [Hcall Hvalid].
  split; [exact Hcall|exact (Hvalid eq_refl)].
Defined.

(** A text that is not UTF-8, the single byte FF: what is posted is
    U+FFFD. *)
Example sendMessage_posts_replacement :
  map reqBody
      (calls (snd (V1.sendMessage Fixture.serving (String "255" EmptyString)
                                  Fixture.started))) =
  [Some [("username", JString "user1");
         ("message", JString replacementChar);
         ("timeSent", JTime zeroTime)]].
Proof. vm_compute. reflexivity. Qed.

(** C4, as the claim has it, fails: the clock of the fixture stands in the
    year 2023, and the body that is posted carries the zero instant. *)
Lemma sendMessage_timeSent_is_not_now :
  map reqBody
      (calls (snd (V1.sendMessage Fixture.serving "hello" Fixture.started))) =
  [Some (MarshalMessage (Message.mk "user1" "hello" zeroTime))] /\
  MarshalMessage (Message.mk "user1" "hello" zeroTime) <>
  MarshalMessage (Message.mk "user1" "hello"
                             (now Fixture.serving Fixture.started)).
Proof.
  split.
  - vm_compute. reflexivity.
  - vm_compute. intros H. discriminate H.
Qed.

(** C6. With the configuration loaded, a tick of the first variant's
    heartbeat calls the HTTP client exactly once, however the call ends: a
    Post to the backend's [/ping] with content type [application/json],
    whose body carries the local identity as [username], as [json.Marshal]
    writes it (U+FFFD for every byte that is not part of a valid UTF-8
    sequence), and the zero instant as [timeSent].  An identity that is
    valid UTF-8 is posted unchanged. *)
Theorem tick_posts_one_ping (env : Env) (st : State) (c : ChatConfig) :
  cfg st = Some c ->
  calls (snd (V1.tick env st)) =
  (calls st ++
   [mkRequest POST
              ("http://" ++ ChatServerFQDN c ++ ":" ++ itoa (ChatServerPort c)
                         ++ "/ping")
              "application/json"
              (Some [("username",
                      JString (replaceInvalidUTF8 (envVarUserName st)));
                     ("timeSent", JTime zeroTime)])])%list /\
  (ValidString (envVarUserName st) = true ->
   replaceInvalidUTF8 (envVarUserName st) = envVarUserName st).
Proof.
  intros Hcfg. split; [|apply replaceInvalidUTF8_valid].
  run_call. rewrite Hcfg.
  match goal with
  | |- context [backend env ?h ?r] =>
      destruct (backend env h r) as [[resp|] [err|]]
  end; cbn; try reflexivity;
    destruct (StatusCode resp =? StatusCreated); reflexivity.
Qed.

Lemma tick_posts_one_ping_witness :
  calls (snd (V1.tick Fixture.serving Fixture.started)) =
  [mkRequest POST "http://chat.server.net:9090/ping" "application/json"
             (Some [("username", JString "user1");
                    ("timeSent", JTime zeroTime)])] /\
  replaceInvalidUTF8 "user1" = "user1".
Proof.
  destruct (tick_posts_one_ping Fixture.serving Fixture.started
                                (mkChatConfig "chat.server.net" 9090 99)
                                eq_refl)
    as [Hcall Hvalid].
  split; [exact Hcall|exact (Hvalid eq_refl)].
Defined.

(** C6, as the claim has it, fails: the ping of the first variant carries
    the zero instant, not the time of sending. *)
Lemma sendPing_timeSent_is_zero :
  map reqBody (calls (snd (V1.tick Fixture.serving Fixture.started))) =
  [Some (MarshalPing (Ping.mk "user1" zeroTime))] /\
  MarshalPing (Ping.mk "user1" zeroTime) <>
  MarshalPing (Ping.mk "user1" (now Fixture.serving Fixture.started)).
Proof.
  split.
  - vm_compute. reflexivity.
  - vm_compute. intros H. discriminate H.
Qed.

(** With the configuration loaded, [sendPing] of the second variant calls
    the HTTP client once, with a body that names a fixed user, whoever runs
    the client. *)
Lemma V2_sendPing_names_Alice (env : Env) (st : State) (c : ChatConfig) :
  cfg st = Some c ->
  map reqBody (calls (snd (V2.sendPing env st))) =
  (map reqBody (calls st) ++
   [Some [("username", JString "Alice"); ("timeSent", JTime zeroTime)]])%list.
Proof.
  intros Hcfg. run_call. rewrite Hcfg.
  match goal with
  | |- context [backend env ?h ?r] =>
      destruct (backend env h r) as [[resp|] [err|]]
  end; cbn; try (rewrite map_app; reflexivity);
    destruct (StatusCode resp =? StatusCreated); cbn;
    rewrite map_app; reflexivity.
Qed.

(** ** Loading the configuration *)

(** C5. When the file cannot be read, [readConfig] of either variant logs a
    fatal error and ends the process with status 1; when the file is read
    and the decoder reports an error, [readConfig] of either variant returns
    nil.  Neither failure yields the defaults. *)
Theorem readConfig_on_failure
        (lib : Lib) (env : Env) (fileName : string) (st : State) :
  (forall err,
      ReadFile env fileName = ReadError err ->
      fst (V1.readConfig lib env fileName st) = Exit 1 /\
      fst (V2.readConfig lib env fileName st) = Exit 1) /\
  (forall data,
      ReadFile env fileName = ReadOK data ->
      (forall c err,
          UnmarshalConfig lib data
            (mkChatConfig defaultHTTPChatServer defaultHTTPChatPort
                          defaultWebServerPortNumber) = (c, Some err) ->
          fst (V1.readConfig lib env fileName st) = Return None) /\
      (forall c err,
          UnmarshalConfig lib data (mkChatConfig EmptyString 0 0)
          = (c, Some err) ->
          fst (V2.readConfig lib env fileName st) = Return None)).
Proof.
  split.
  - intros err Hread. unfold V1.readConfig, V2.readConfig.
    rewrite Hread. split; reflexivity.
  - intros data Hread. split; intros c err Hdec.
    + unfold V1.readConfig. rewrite Hread, Hdec. reflexivity.
    + unfold V2.readConfig. rewrite Hread, Hdec. reflexivity.
Qed.

Lemma readConfig_on_failure_witness :
  (fst (V1.readConfig Fixture.lib Fixture.noConfigFile "client.cfg"
                      (initialState Fixture.noConfigFile)) = Exit 1 /\
   fst (V2.readConfig Fixture.lib Fixture.noConfigFile "client.cfg"
                      (initialState Fixture.noConfigFile)) = Exit 1) /\
  fst (V1.readConfig Fixture.lib Fixture.badConfigFile "client.cfg"
                     (initialState Fixture.badConfigFile)) = Return None /\
  fst (V2.readConfig Fixture.lib Fixture.badConfigFile "client.cfg"
                     (initialState Fixture.badConfigFile)) = Return None.
Proof.
  pose proof (readConfig_on_failure
                Fixture.lib Fixture.noConfigFile "client.cfg"
                (initialState Fixture.noConfigFile)) as [Hread _].
  pose proof (readConfig_on_failure
                Fixture.lib Fixture.badConfigFile "client.cfg"
                (initialState Fixture.badConfigFile)) as [_ Hparse].
  split; [|split].
  - exact (Hread "open: no such file or directory" eq_refl).
  - exact (proj1 (Hparse "not json" eq_refl)
                 (mkChatConfig defaultHTTPChatServer defaultHTTPChatPort
                               defaultWebServerPortNumber)
                 Fixture.syntaxError eq_refl).
  - exact (proj2 (Hparse "not json" eq_refl)
                 (mkChatConfig EmptyString 0 0)
                 Fixture.syntaxError eq_refl).
Defined.

(** C5, as the claim has it, fails: without a readable file the first
    variant ends the process, and with an unparsable one it returns nil; in
    neither case does it return the defaults. *)
Lemma readConfig_does_not_fall_back :
  (fst (V1.readConfig Fixture.lib Fixture.noConfigFile "client.cfg"
                      (initialState Fixture.noConfigFile)) = Exit 1 /\
   Exit 1 <>
   Return (Some (mkChatConfig "chat.server.net" 8080 99))) /\
  (fst (V1.readConfig Fixture.lib Fixture.badConfigFile "client.cfg"
                      (initialState Fixture.badConfigFile)) = Return None /\
   Return None <>
   Return (Some (mkChatConfig "chat.server.net" 8080 99))).
Proof.
  split; split; try (vm_compute; reflexivity); intros H; discriminate H.
Qed.

(** After the failed parse, [main] goes on with a nil [cfg] and panics when
    it reads the configuration back. *)
Example startup_with_unparsable_file :
  fst (V1.startup Fixture.lib Fixture.badConfigFile
                  (initialState Fixture.badConfigFile)) =
  Panic nilDereference.
Proof. vm_compute. reflexivity. Qed.

(** C8. When the file is read and decoded without error, the first
    variant's [readConfig] returns a configuration in which every field the
    decoder left at zero (a port) or empty (the host) holds its default and
    every other field holds what the decoder left; in particular, when the
    file sets only the remote port, to 9090, the result is
    [chat.server.net], 9090 and 99. *)
Theorem readConfig_applies_defaults
        (lib : Lib) (env : Env) (fileName data : string) (st : State)
        (parsed : ChatConfig) :
  ReadFile env fileName = ReadOK data ->
  UnmarshalConfig lib data
    (mkChatConfig defaultHTTPChatServer defaultHTTPChatPort
                  defaultWebServerPortNumber) = (parsed, None) ->
  exists c : ChatConfig,
    fst (V1.readConfig lib env fileName st) = Return (Some c) /\
    (ChatServerPort parsed = 0 -> ChatServerPort c = 8080) /\
    (ChatServerPort parsed <> 0 -> ChatServerPort c = ChatServerPort parsed) /\
    (ChatServerFQDN parsed = EmptyString ->
     ChatServerFQDN c = "chat.server.net") /\
    (ChatServerFQDN parsed <> EmptyString ->
     ChatServerFQDN c = ChatServerFQDN parsed) /\
    (WebServerPortNumber parsed = 0 -> WebServerPortNumber c = 99) /\
    (WebServerPortNumber parsed <> 0 ->
     WebServerPortNumber c = WebServerPortNumber parsed) /\
    ((forall c0, UnmarshalConfig lib data c0 =
                 (mkChatConfig (ChatServerFQDN c0) 9090
                               (WebServerPortNumber c0), None)) ->
     c = mkChatConfig "chat.server.net" 9090 99).
Proof.
  intros Hread Hdec. unfold V1.readConfig. rewrite Hread, Hdec.
  destruct parsed as [host port web]. cbn [ChatServerPort ChatServerFQDN
                                            WebServerPortNumber].
  eexists. split; [reflexivity|].
  destruct (Z.eqb_spec port 0) as [Hp|Hp];
    cbn [ChatServerPort ChatServerFQDN WebServerPortNumber];
    destruct (String.eqb_spec host EmptyString) as [Hh|Hh];
    cbn [ChatServerPort ChatServerFQDN WebServerPortNumber];
    destruct (Z.eqb_spec web 0) as [Hw|Hw];
    cbn [ChatServerPort ChatServerFQDN WebServerPortNumber];
    repeat split; intros; try reflexivity; try congruence;
    match goal with
    | Hall : forall c0, UnmarshalConfig lib data c0 = _ |- _ =>
        rewrite Hall in Hdec; cbn in Hdec; injection Hdec as <- <- <-
    end;
    try reflexivity; try discriminate; try congruence.
Qed.

Lemma readConfig_applies_defaults_witness :
  exists c : ChatConfig,
    fst (V1.readConfig Fixture.lib Fixture.serving "client.cfg"
                       (initialState Fixture.serving)) = Return (Some c) /\
    c = mkChatConfig "chat.server.net" 9090 99.
Proof.
  destruct (readConfig_applies_defaults
              Fixture.lib Fixture.serving "client.cfg" Fixture.configDoc
              (initialState Fixture.serving)
              (mkChatConfig "chat.server.net" 9090 99) eq_refl eq_refl)
    as (c & Hc & _ & _ & _ & _ & _ & _ & Honly).
  exists c. split; [exact Hc|].
  apply Honly. intros c0. reflexivity.
Defined.

(** The second variant starts from the zero value of the struct, so that a
    field the file does not mention is zero or empty and gets its default
    there. *)
Lemma V2_readConfig_applies_defaults
      (lib : Lib) (env : Env) (fileName data : string) (st : State)
      (parsed : ChatConfig) :
  ReadFile env fileName = ReadOK data ->
  UnmarshalConfig lib data (mkChatConfig EmptyString 0 0) = (parsed, None) ->
  fst (V2.readConfig lib env fileName st) =
  Return (Some (mkChatConfig
                  (if String.eqb (ChatServerFQDN parsed) EmptyString
                   then "chat.server.net" else ChatServerFQDN parsed)
                  (if ChatServerPort parsed =? 0
                   then 8080 else ChatServerPort parsed)
                  (if WebServerPortNumber parsed =? 0
                   then 99 else WebServerPortNumber parsed))).
Proof.
  intros Hread Hdec. unfold V2.readConfig. rewrite Hread, Hdec.
  destruct parsed as [host port web].
  cbn [ChatServerPort ChatServerFQDN WebServerPortNumber].
  destruct (port =? 0);
    cbn [ChatServerPort ChatServerFQDN WebServerPortNumber];
    destruct (String.eqb host EmptyString);
    cbn [ChatServerPort ChatServerFQDN WebServerPortNumber];
    destruct (web =? 0); reflexivity.
Qed.

Example V2_readConfig_port_only :
  fst (V2.readConfig Fixture.lib Fixture.serving "client.cfg"
                     (initialState Fixture.serving)) =
  Return (Some (mkChatConfig "chat.server.net" 9090 99)).
Proof. vm_compute. reflexivity. Qed.

(** ** The loop of the users view *)

Lemma rangeUsers_present (lib : Lib) (present : list User.t) :
  forall idx acc st,
  exists lines : list string,
    V1.rangeUsers lib idx (map Some present) acc st = (Return lines, st) /\
    length lines = (length acc + length present)%nat /\
    (forall i, (i < length acc)%nat -> nth_error lines i = nth_error acc i) /\
    (forall i user,
        nth_error present i = Some user ->
        nth_error lines (length acc + i) =
        Some (formatEntry (idx + Z.of_nat i)
                          (TimeString lib (User.LastPing user))
                          (User.Username user))).
Proof.
  induction present as [|u present IH]; intros idx acc st.
  - exists acc. cbn. repeat split.
    + lia.
    + intros i user Hnth. destruct i; discriminate.
  - destruct (IH (idx + 1)
                 (acc ++ [formatEntry idx (TimeString lib (User.LastPing u))
                                      (User.Username u)])%list st)
      as (lines & Hrun & Hlen & Hold & Hnew).
    rewrite length_app in Hlen, Hold, Hnew. cbn [length] in Hlen, Hold, Hnew.
    exists lines. repeat split.
    + exact Hrun.
    + cbn [length]. lia.
    + intros i Hi. rewrite Hold by lia. apply nth_error_app1. exact Hi.
    + intros i user Hnth. destruct i as [|i]; cbn in Hnth.
      * injection Hnth as ->.
        rewrite Nat.add_0_r, Z.add_0_r, Hold by lia.
        rewrite nth_error_app2 by lia. rewrite Nat.sub_diag. reflexivity.
      * replace (length acc + S i)%nat with (length acc + 1 + i)%nat by lia.
        rewrite (Hnew i user Hnth). f_equal. f_equal. lia.
Qed.

Lemma rangeUsers_nil_pointer (lib : Lib) (before after : list (option User.t)) :
  forall idx acc st,
    (forall u, In u before -> u <> None) ->
    fst (V1.rangeUsers lib idx (before ++ None :: after) acc st) =
    Panic nilDereference.
Proof.
  induction before as [|u before IH]; intros idx acc st Hsome.
  - reflexivity.
  - destruct u as [user|].
    + cbn. apply IH. intros u Hin. apply Hsome. right. exact Hin.
    + exfalso. apply (Hsome None); [left|]; reflexivity.
Qed.

(** C7. Whenever [getActiveUsers] returns a list without nil entries,
    [handlerGetUsers] answers with the page whose body is the lines joined by
    ["<br/>"], where there are as many lines as users and line [i] (counted
    from 0) is [(i)[lastPing] username] for the user at position [i] of the
    list, [lastPing] printed as [time.Time.String] prints it. *)
Theorem handlerGetUsers_renders_in_order
        (lib : Lib) (env : Env) (r : InboundRequest)
        (st st' : State) (present : list User.t) :
  V1.getActiveUsers lib env st = (Return (map Some present), st') ->
  exists lines : list string,
    V1.handlerGetUsers lib env r st =
    (Return (Page (V1.usersHead ++ Join lines "<br/>" ++ "</body></html>")),
     st') /\
    length lines = length present /\
    forall (i : nat) (user : User.t),
      nth_error present i = Some user ->
      nth_error lines i =
      Some ("(" ++ itoa (Z.of_nat i) ++ ")["
                ++ TimeString lib (User.LastPing user) ++ "] "
                ++ User.Username user).
Proof.
  intros Hget.
  destruct (rangeUsers_present lib present 0 [] st')
    as (lines & Hrun & Hlen & _ & Hnth).
  exists lines. split; [|split].
  - unfold V1.handlerGetUsers.
    rewrite (bind_Return _ _ _ _ _ Hget), (bind_Return _ _ _ _ _ Hrun).
    reflexivity.
  - exact Hlen.
  - intros i user Hi. exact (Hnth i user Hi).
Qed.

(** Three users, one name twice: the theorem gives the page, with the lines
    in the order of the list, numbered from 0 and joined by ["<br/>"]. *)
Lemma handlerGetUsers_renders_in_order_witness :
  V1.handlerGetUsers Crowd.lib Crowd.world Fixture.emptyForm Fixture.started =
  (Return
     (Page (V1.usersHead ++
            "(0)[2023-03-01 12:00:00 +0000 UTC] alice<br/>" ++
            "(1)[0001-01-01 00:00:00 +0000 UTC] bob<br/>" ++
            "(2)[2023-03-01 12:00:00 +0000 UTC] alice" ++
            "</body></html>")),
   snd (V1.getActiveUsers Crowd.lib Crowd.world Fixture.started)).
Proof.
  assert (Hget : V1.getActiveUsers Crowd.lib Crowd.world Fixture.started =
                 (Return (map Some Crowd.users),
                  snd (V1.getActiveUsers Crowd.lib Crowd.world
                                         Fixture.started)))
    by (vm_compute; reflexivity).
  destruct (handlerGetUsers_renders_in_order
              Crowd.lib Crowd.world Fixture.emptyForm Fixture.started
              (snd (V1.getActiveUsers Crowd.lib Crowd.world Fixture.started))
              Crowd.users Hget)
    as (lines & Hpage & Hlen & Hnth).
  pose proof (Hnth 0%nat _ eq_refl) as H0.
  pose proof (Hnth 1%nat _ eq_refl) as H1.
  pose proof (Hnth 2%nat _ eq_refl) as H2.
  destruct lines as [|l0 [|l1 [|l2 [|l3 more]]]]; try discriminate Hlen.
  vm_compute in H0, H1, H2.
  injection H0 as ->. injection H1 as ->. injection H2 as ->.
  rewrite Hpage. vm_compute. reflexivity.
Defined.

(** C7, as the claim has it, fails: the line for a user holds the time of
    the last ping, in brackets, between the index and the name. *)
Lemma handlerGetUsers_line_has_lastPing :
  fst (V1.handlerGetUsers Fixture.lib Fixture.serving Fixture.emptyForm
                          Fixture.started) =
  Return (Page (V1.usersHead ++
                Join ["(0)[0001-01-01 00:00:00 +0000 UTC] alice"] "<br/>" ++
                "</body></html>")) /\
  Return (Page (V1.usersHead ++
                Join ["(0)[0001-01-01 00:00:00 +0000 UTC] alice"] "<br/>" ++
                "</body></html>")) <>
  Return (Page (V1.usersHead ++ Join ["(0) alice"] "<br/>" ++
                "</body></html>")).
Proof.
  split.
  - vm_compute. reflexivity.
  - vm_compute. intros H. discriminate H.
Qed.

(** ** The two variants of the messages view *)

Lemma rangeMessages_variants_agree (rest : list Message.t) :
  forall idx acc,
    V1.rangeMessages idx rest acc = V2.rangeMessages idx rest acc.
Proof.
  induction rest as [|msg rest IH]; intros idx acc; simpl.
  - reflexivity.
  - apply IH.
Qed.

Lemma messagesHead_variants_agree : V1.messagesHead = V2.messagesHead.
Proof. reflexivity. Qed.

(** C10. Whenever the two variants fetch the same message list, the first
    variant's [handlerGetMessages] and the second variant's
    [handlerGetMessagesForChannel] write the same page, character for
    character. *)
Theorem messages_view_variants_agree
        (lib1 lib2 : Lib) (env1 env2 : Env) (r1 r2 : InboundRequest)
        (st1 st1' st2 st2' : State) (fetched : list Message.t) :
  V1.getMessages lib1 env1 st1 = (Return fetched, st1') ->
  V2.getMessages lib2 env2 st2 = (Return fetched, st2') ->
  exists content : string,
    V1.handlerGetMessages lib1 env1 r1 st1 = (Return (Page content), st1') /\
    V2.handlerGetMessagesForChannel lib2 env2 r2 st2 =
    (Return (Page content), st2').
Proof.
  intros H1 H2.
  exists (V1.messagesHead ++ Join (V1.rangeMessages 0 fetched []) "<br/>"
                          ++ "</body></html>").
  split.
  - unfold V1.handlerGetMessages.
    rewrite (bind_Return _ _ _ _ _ H1). reflexivity.
  - unfold V2.handlerGetMessagesForChannel.
    rewrite (bind_Return _ _ _ _ _ H2).
    rewrite <- rangeMessages_variants_agree.
    change V2.messagesHead with V1.messagesHead.
    reflexivity.
Qed.

Lemma messages_view_variants_agree_witness :
  exists content : string,
    V1.handlerGetMessages Fixture.lib Fixture.serving Fixture.emptyForm
                          Fixture.started =
    (Return (Page content),
     snd (V1.getMessages Fixture.lib Fixture.serving Fixture.started)) /\
    V2.handlerGetMessagesForChannel Fixture.lib Fixture.serving
                                    Fixture.emptyForm Fixture.started =
    (Return (Page content),
     snd (V2.getMessages Fixture.lib Fixture.serving Fixture.started)).
Proof.
  refine (messages_view_variants_agree
            Fixture.lib Fixture.lib Fixture.serving Fixture.serving
            Fixture.emptyForm Fixture.emptyForm
            Fixture.started
            (snd (V1.getMessages Fixture.lib Fixture.serving Fixture.started))
            Fixture.started
            (snd (V2.getMessages Fixture.lib Fixture.serving Fixture.started))
            [Message.mk "bob" "hi" zeroTime;
             Message.mk "eve" "yo" zeroTime;
             Message.mk "bob" "hi" zeroTime] _ _);
    vm_compute; reflexivity.
Defined.

(** ** The shared variables are written at startup only *)

Section Frame.

Context {A B : Type}.

Lemma keeps_ret (a : A) : keepsShared (ret a).
Proof. intros st. split; reflexivity. Qed.

Lemma keeps_panic (reason : string) : keepsShared (@panic A reason).
Proof. intros st. split; reflexivity. Qed.

Lemma keeps_osExit (code : Z) : keepsShared (@osExit A code).
Proof. intros st. split; reflexivity. Qed.

Lemma keeps_bind (m : M A) (k : A -> M B) :
  keepsShared m -> (forall a, keepsShared (k a)) -> keepsShared (bind m k).
Proof.
  intros Hm Hk st. unfold bind.
  specialize (Hm st). destruct (m st) as [[a|reason|code] st']; cbn in *.
  - destruct Hm as [Hcfg Huser], (Hk a st') as [Hcfg' Huser'].
    split; congruence.
  - exact Hm.
  - exact Hm.
Qed.

End Frame.

Lemma keeps_getState : keepsShared getState.
Proof. intros st. split; reflexivity. Qed.

Lemma keeps_appendLog (e : LogEntry) : keepsShared (appendLog e).
Proof. intros st. split; reflexivity. Qed.

Lemma keeps_appendCall (r : Request) : keepsShared (appendCall r).
Proof. intros st. split; reflexivity. Qed.

Lemma keeps_derefCfg : keepsShared derefCfg.
Proof.
  intros st. unfold derefCfg.
  destruct (cfg st) eqn:Hcfg; cbn; split; (exact Hcfg || reflexivity).
Qed.

Lemma keeps_timeNow (env : Env) : keepsShared (timeNow env).
Proof. intros st. split; reflexivity. Qed.

Lemma keeps_roundTrip (env : Env) (r : Request) :
  keepsShared (roundTrip env r).
Proof. intros st. split; reflexivity. Qed.

Create HintDb frame discriminated.

#[local] Hint Resolve keeps_ret keeps_panic keeps_osExit keeps_getState
  keeps_appendLog keeps_appendCall keeps_derefCfg keeps_timeNow
  keeps_roundTrip : frame.

(** Takes a computation apart along its binds and its case distinctions and
    closes the leaves with the lemmas above. *)
Ltac frame_step :=
  match goal with
  | |- keepsShared (bind _ _) => apply keeps_bind; [|intros]
  | |- keepsShared (match ?x with _ => _ end) => destruct x
  | |- keepsShared (if ?b then _ else _) => destruct b
  | |- keepsShared (let (_, _) := ?x in _) => destruct x
  | |- keepsShared _ => solve [auto with frame]
  end.

Ltac frame :=
  unfold logInfo, logPrint, logFatal, derefResp, derefUser,
         httpGet, httpPost;
  repeat frame_step.

Lemma keeps_V1_sendMessage (env : Env) (message : string) :
  keepsShared (V1.sendMessage env message).
Proof. unfold V1.sendMessage. frame. Qed.

Lemma keeps_V1_getMessages (lib : Lib) (env : Env) :
  keepsShared (V1.getMessages lib env).
Proof. unfold V1.getMessages. frame. Qed.

Lemma keeps_V1_sendPing (env : Env) : keepsShared (V1.sendPing env).
Proof. unfold V1.sendPing. frame. Qed.

Lemma keeps_V1_getActiveUsers (lib : Lib) (env : Env) :
  keepsShared (V1.getActiveUsers lib env).
Proof. unfold V1.getActiveUsers. frame. Qed.

Lemma keeps_V1_rangeUsers (lib : Lib) (rest : list (option User.t)) :
  forall idx acc, keepsShared (V1.rangeUsers lib idx rest acc).
Proof.
  induction rest as [|u rest IH]; intros idx acc; cbn [V1.rangeUsers].
  - apply keeps_ret.
  - apply keeps_bind; [|intros user; apply IH].
    destruct u; [apply keeps_ret|apply keeps_panic].
Qed.

#[local] Hint Resolve keeps_V1_sendMessage keeps_V1_getMessages
  keeps_V1_sendPing keeps_V1_getActiveUsers keeps_V1_rangeUsers : frame.

Lemma keeps_V1_handler (lib : Lib) (env : Env)
      (h : HandlerName) (r : InboundRequest) :
  keepsShared (V1.handler lib env h r).
Proof.
  destruct h; cbn [V1.handler];
    unfold V1.handlerIndex, V1.handlerGetMessages, V1.handlerGetUsers,
           V1.handlerSendMessage;
    frame.
Qed.

Lemma keeps_V1_tick (env : Env) : keepsShared (V1.tick env).
Proof. unfold V1.tick. frame. Qed.

Lemma step_keeps_shared
      (handler : HandlerName -> InboundRequest -> M Reply) (tick : M unit) :
  (forall h r, keepsShared (handler h r)) ->
  keepsShared tick ->
  forall ev p,
    cfg (stateOf (step handler tick ev p)) = cfg (stateOf p) /\
    envVarUserName (stateOf (step handler tick ev p)) =
    envVarUserName (stateOf p).
Proof.
  intros Hhandler Htick ev p.
  destruct p as [st|st reason|st code]; cbn [step stateOf];
    try (split; reflexivity).
  destruct ev as [|path r].
  - specialize (Htick st).
    destruct (tick st) as [[[]|reason|code] st']; exact Htick.
  - destruct (route (routes st) path) as [h|]; [|split; reflexivity].
    specialize (Hhandler h r st).
    destruct (handler h r st) as [[reply|reason|code] st']; exact Hhandler.
Qed.

Lemma run_keeps_shared
      (handler : HandlerName -> InboundRequest -> M Reply) (tick : M unit) :
  (forall h r, keepsShared (handler h r)) ->
  keepsShared tick ->
  forall evs p,
    cfg (stateOf (run handler tick evs p)) = cfg (stateOf p) /\
    envVarUserName (stateOf (run handler tick evs p)) =
    envVarUserName (stateOf p).
Proof.
  intros Hhandler Htick evs.
  induction evs as [|ev evs IH]; intros p; cbn [run fold_left].
  - split; reflexivity.
  - destruct (IH (step handler tick ev p)) as [Hcfg Huser].
    destruct (step_keeps_shared handler tick Hhandler Htick ev p)
      as [Hcfg' Huser'].
    unfold run in Hcfg, Huser. split; congruence.
Qed.

(** C9. Once [main] has finished its startup and the process serves, [cfg]
    and [envVarUserName] keep the values they had at that point, however
    many ticks and requests follow, in whatever order, and whatever the
    backend answers: no handler and no tick of the heartbeat writes them.
    The same holds from any other state [st].  (A handler or a tick is one
    step here; as none of them writes the two variables, a finer
    interleaving would show the same.) *)
Theorem shared_state_is_read_only_after_startup
        (lib : Lib) (env : Env) (evs : list Event) (st : State) :
  let st0 := snd (V1.startup lib env (initialState env)) in
  let serve := run (V1.handler lib env) (V1.tick env) evs in
  (cfg (stateOf (serve (Running st0))) = cfg st0 /\
   envVarUserName (stateOf (serve (Running st0))) = envVarUserName st0) /\
  (cfg (stateOf (serve (Running st))) = cfg st /\
   envVarUserName (stateOf (serve (Running st))) = envVarUserName st).
Proof.
  intros st0 serve. unfold serve.
  split;
    apply (run_keeps_shared (V1.handler lib env) (V1.tick env)
                            (keeps_V1_handler lib env) (keeps_V1_tick env)
                            evs (Running _)).
Qed.

(** Startup is where [cfg] is written: it is nil before and set after. *)
Example startup_writes_cfg :
  cfg (initialState Fixture.serving) = None /\
  cfg (snd (V1.startup Fixture.lib Fixture.serving
                       (initialState Fixture.serving))) =
  Some (mkChatConfig "chat.server.net" 9090 99).
Proof. split; vm_compute; reflexivity. Qed.

(** A run of the fixture: two ticks around three requests. *)
Example run_example :
  let p := run (V1.handler Fixture.lib Fixture.serving)
               (V1.tick Fixture.serving)
               [Tick; Incoming "/get-messages" Fixture.emptyForm;
                Incoming "/send-message" Fixture.helloForm;
                Incoming "/get-users" Fixture.emptyForm; Tick]
               (Running Fixture.started) in
  map reqURL (calls (stateOf p)) =
  ["http://chat.server.net:9090/ping";
   "http://chat.server.net:9090/messages";
   "http://chat.server.net:9090/messages";
   "http://chat.server.net:9090/users";
   "http://chat.server.net:9090/ping"] /\
  cfg (stateOf p) = cfg Fixture.started.
Proof. split; vm_compute; reflexivity. Qed.

(* ================================================================== *)
(** * Further properties of the code *)

(** ** The two fetching calls of the first variant *)

(** With the configuration loaded, [getMessages] calls the HTTP client
    once, with a Get for the backend's [/messages].  When the client hands
    back no response it panics; when it hands back one, of whatever status,
    it returns what the decoder left in the slice, also when the decoder
    reports an error. *)
Theorem getMessages_request_and_result
        (lib : Lib) (env : Env) (st : State) (c : ChatConfig) :
  cfg st = Some c ->
  let request :=
    mkRequest GET
              ("http://" ++ ChatServerFQDN c ++ ":" ++ itoa (ChatServerPort c)
                         ++ "/messages")
              EmptyString None in
  calls (snd (V1.getMessages lib env st)) = (calls st ++ [request])%list /\
  fst (V1.getMessages lib env st) =
  match rtResp (backend env (calls st) request) with
  | Some resp => Return (fst (DecodeMessages lib (Body resp)))
  | None => Panic nilDereference
  end.
Proof.
  intros Hcfg request. subst request. run_call. rewrite Hcfg.
  unfold backendURL. cbn.
  match goal with
  | |- context [backend env ?h ?r] =>
      destruct (backend env h r) as [[resp|] [err|]]
  end; cbn; try (split; reflexivity);
    destruct (StatusCode resp =? StatusOK); cbn;
    destruct (DecodeMessages lib (Body resp)) as [messages [e|]]; cbn;
    split; reflexivity.
Qed.

(** Against the backend with the ill-typed entry, the first variant returns
    the two messages the decoder left, the second of them empty. *)
Lemma getMessages_request_and_result_witness :
  calls (snd (V1.getMessages Corner.lib Corner.world Fixture.started)) =
  [mkRequest GET "http://chat.server.net:9090/messages" EmptyString None] /\
  fst (V1.getMessages Corner.lib Corner.world Fixture.started) =
  Return [Message.mk "bob" "hi" zeroTime;
          Message.mk EmptyString EmptyString zeroTime].
Proof.
  exact (getMessages_request_and_result
           Corner.lib Corner.world Fixture.started
           (mkChatConfig "chat.server.net" 9090 99) eq_refl).
Defined.

(** With the configuration loaded, [getActiveUsers] calls the HTTP client
    once, with a Get for the backend's [/users].  When the client hands back
    no response it panics; when it hands back one, of whatever status, it
    returns what the decoder left in the slice, also when the decoder
    reports an error. *)
Theorem getActiveUsers_request_and_result
        (lib : Lib) (env : Env) (st : State) (c : ChatConfig) :
  cfg st = Some c ->
  let request :=
    mkRequest GET
              ("http://" ++ ChatServerFQDN c ++ ":" ++ itoa (ChatServerPort c)
                         ++ "/users")
              EmptyString None in
  calls (snd (V1.getActiveUsers lib env st)) = (calls st ++ [request])%list /\
  fst (V1.getActiveUsers lib env st) =
  match rtResp (backend env (calls st) request) with
  | Some resp => Return (fst (DecodeUsers lib (Body resp)))
  | None => Panic nilDereference
  end.
Proof.
  intros Hcfg request. subst request. run_call. rewrite Hcfg.
  unfold backendURL. cbn.
  match goal with
  | |- context [backend env ?h ?r] =>
      destruct (backend env h r) as [[resp|] [err|]]
  end; cbn; try (split; reflexivity);
    destruct (StatusCode resp =? StatusOK); cbn;
    destruct (DecodeUsers lib (Body resp)) as [users [e|]]; cbn;
    split; reflexivity.
Qed.

Lemma getActiveUsers_request_and_result_witness :
  calls (snd (V1.getActiveUsers Corner.lib Corner.world Fixture.started)) =
  [mkRequest GET "http://chat.server.net:9090/users" EmptyString None] /\
  fst (V1.getActiveUsers Corner.lib Corner.world Fixture.started) =
  Return [Some (User.mk "alice" zeroTime); None].
Proof.
  exact (getActiveUsers_request_and_result
           Corner.lib Corner.world Fixture.started
           (mkChatConfig "chat.server.net" 9090 99) eq_refl).
Defined.

(** ** Calling the gateway before the configuration is loaded *)

(** While [cfg] is nil, each of the four gateway functions of the first
    variant panics on reading the host through it, before it gets to call
    the HTTP client: nothing is sent. *)
Theorem gateway_without_config_panics
        (lib : Lib) (env : Env) (message : string) (st : State) :
  cfg st = None ->
  (fst (V1.getMessages lib env st) = Panic nilDereference /\
   calls (snd (V1.getMessages lib env st)) = calls st) /\
  (fst (V1.getActiveUsers lib env st) = Panic nilDereference /\
   calls (snd (V1.getActiveUsers lib env st)) = calls st) /\
  (fst (V1.sendMessage env message st) = Panic nilDereference /\
   calls (snd (V1.sendMessage env message st)) = calls st) /\
  (fst (V1.sendPing env st) = Panic nilDereference /\
   calls (snd (V1.sendPing env st)) = calls st).
Proof.
  intros Hcfg. repeat split; run_call; rewrite Hcfg; reflexivity.
Qed.

Lemma gateway_without_config_panics_witness :
  (fst (V1.getMessages Fixture.lib Fixture.serving
                       (initialState Fixture.serving)) =
   Panic nilDereference /\
   calls (snd (V1.getMessages Fixture.lib Fixture.serving
                             (initialState Fixture.serving))) = []) /\
  (fst (V1.getActiveUsers Fixture.lib Fixture.serving
                          (initialState Fixture.serving)) =
   Panic nilDereference /\
   calls (snd (V1.getActiveUsers Fixture.lib Fixture.serving
                                (initialState Fixture.serving))) = []) /\
  (fst (V1.sendMessage Fixture.serving "hello"
                       (initialState Fixture.serving)) =
   Panic nilDereference /\
   calls (snd (V1.sendMessage Fixture.serving "hello"
                             (initialState Fixture.serving))) = []) /\
  (fst (V1.sendPing Fixture.serving (initialState Fixture.serving)) =
   Panic nilDereference /\
   calls (snd (V1.sendPing Fixture.serving (initialState Fixture.serving))) =
   []).
Proof.
  exact (gateway_without_config_panics
           Fixture.lib Fixture.serving "hello"
           (initialState Fixture.serving) eq_refl).
Defined.

(** ** The send-message handler *)

(** A post that comes back with status 500 still ends in the redirect. *)
Lemma handlerSendMessage_outcome_witness :
  fst (V1.handlerSendMessage Corner.world Fixture.helloForm Fixture.started) =
  Return (Redirect "/" 302).
Proof.
  exact (handlerSendMessage_outcome
           Corner.world Fixture.helloForm Fixture.started
           (mkChatConfig "chat.server.net" 9090 99) eq_refl).
Defined.

(** With the configuration loaded, the send-message handler of the first
    variant calls the HTTP client once for a form it can parse, with a Post
    that carries the first value of the field [message], or the empty text
    when the form has no such field, as [json.Marshal] writes it; for a form
    it cannot parse it does not call the client.  This does not depend on
    how the call ends. *)
Theorem handlerSendMessage_requests
        (env : Env) (r : InboundRequest) (st : State) (c : ChatConfig) :
  cfg st = Some c ->
  calls (snd (V1.handlerSendMessage env r st)) =
  match ParseForm r with
  | FormError _ => calls st
  | FormOK form =>
      (calls st ++
       [mkRequest POST
                  ("http://" ++ ChatServerFQDN c ++ ":"
                             ++ itoa (ChatServerPort c) ++ "/messages")
                  "application/json"
                  (Some [("username",
                          JString (replaceInvalidUTF8 (envVarUserName st)));
                         ("message",
                          JString (replaceInvalidUTF8
                                     (Get form formKeyMessage)));
                         ("timeSent", JTime zeroTime)])])%list
  end.
Proof.
  intros Hcfg. unfold V1.handlerSendMessage.
  destruct (ParseForm r) as [err|form].
  - reflexivity.
  - run_call. rewrite Hcfg. unfold backendURL. cbn.
    match goal with
    | |- context [backend env ?h ?q] =>
        destruct (backend env h q) as [[resp|] [e|]]
    end; cbn; try reflexivity;
      destruct (StatusCode resp =? StatusCreated); reflexivity.
Qed.

(** Four forms against a backend that cannot be reached: one with a text,
    one whose text is the byte FF, one without the field, and one that
    cannot be parsed. *)
Lemma handlerSendMessage_requests_witness :
  calls (snd (V1.handlerSendMessage Fixture.unreachable Fixture.helloForm
                                    Fixture.started)) =
  [mkRequest POST "http://chat.server.net:9090/messages" "application/json"
             (Some [("username", JString "user1");
                    ("message", JString "hello");
                    ("timeSent", JTime zeroTime)])] /\
  calls (snd (V1.handlerSendMessage
                Fixture.unreachable
                (mkInbound (FormOK [("message", [String "255" EmptyString])]))
                Fixture.started)) =
  [mkRequest POST "http://chat.server.net:9090/messages" "application/json"
             (Some [("username", JString "user1");
                    ("message", JString replacementChar);
                    ("timeSent", JTime zeroTime)])] /\
  calls (snd (V1.handlerSendMessage Fixture.unreachable Fixture.emptyForm
                                    Fixture.started)) =
  [mkRequest POST "http://chat.server.net:9090/messages" "application/json"
             (Some [("username", JString "user1");
                    ("message", JString EmptyString);
                    ("timeSent", JTime zeroTime)])] /\
  calls (snd (V1.handlerSendMessage Fixture.unreachable
                                    (mkInbound (FormError "invalid URL escape"))
                                    Fixture.started)) = [].
Proof.
  pose proof (fun r => handlerSendMessage_requests
                         Fixture.unreachable r Fixture.started
                         (mkChatConfig "chat.server.net" 9090 99) eq_refl)
    as Hcalls.
  split; [|split; [|split]].
  - exact (Hcalls Fixture.helloForm).
  - exact (Hcalls (mkInbound
                     (FormOK [("message", [String "255" EmptyString])]))).
  - exact (Hcalls Fixture.emptyForm).
  - exact (Hcalls (mkInbound (FormError "invalid URL escape"))).
Defined.

(** ** One call of the HTTP client at most for each event *)

Section Sending.

Context {A B : Type}.

Lemma calls_ret (n : nat) (a : A) : callsAtMost n (ret a).
Proof. intros st. exists []. cbn. rewrite app_nil_r. split; [reflexivity|lia]. Qed.

Lemma calls_panic (n : nat) (reason : string) : callsAtMost n (@panic A reason).
Proof. intros st. exists []. cbn. rewrite app_nil_r. split; [reflexivity|lia]. Qed.

Lemma calls_osExit (n : nat) (code : Z) : callsAtMost n (@osExit A code).
Proof. intros st. exists []. cbn. rewrite app_nil_r. split; [reflexivity|lia]. Qed.

Lemma calls_bind (n k : nat) (m : M A) (f : A -> M B) :
  callsAtMost n m -> (forall a, callsAtMost k (f a)) ->
  callsAtMost (n + k) (bind m f).
Proof.
  intros Hm Hf st. unfold bind.
  destruct (Hm st) as (first & Hfirst & Hn).
  destruct (m st) as [[a|reason|code] st']; cbn [snd] in *.
  - destruct (Hf a st') as (second & Hsecond & Hk).
    exists (first ++ second)%list. rewrite Hsecond, Hfirst, app_assoc.
    split; [reflexivity|]. rewrite length_app. lia.
  - exists first. split; [exact Hfirst|lia].
  - exists first. split; [exact Hfirst|lia].
Qed.

Lemma calls_bind_first (n : nat) (m : M A) (f : A -> M B) :
  callsAtMost n m -> (forall a, callsAtMost 0 (f a)) ->
  callsAtMost n (bind m f).
Proof.
  intros Hm Hf. rewrite <- (Nat.add_0_r n). apply calls_bind; assumption.
Qed.

Lemma calls_bind_second (n : nat) (m : M A) (f : A -> M B) :
  callsAtMost 0 m -> (forall a, callsAtMost n (f a)) ->
  callsAtMost n (bind m f).
Proof.
  intros Hm Hf. change n with (0 + n)%nat. apply calls_bind; assumption.
Qed.

End Sending.

Lemma calls_getState (n : nat) : callsAtMost n getState.
Proof. intros st. exists []. cbn. rewrite app_nil_r. split; [reflexivity|lia]. Qed.

Lemma calls_appendLog (n : nat) (e : LogEntry) : callsAtMost n (appendLog e).
Proof. intros st. exists []. cbn. rewrite app_nil_r. split; [reflexivity|lia]. Qed.

Lemma calls_derefCfg (n : nat) : callsAtMost n derefCfg.
Proof.
  intros st. exists []. unfold derefCfg.
  destruct (cfg st); cbn; rewrite app_nil_r; split; (reflexivity || lia).
Qed.

Lemma calls_timeNow (n : nat) (env : Env) : callsAtMost n (timeNow env).
Proof. intros st. exists []. cbn. rewrite app_nil_r. split; [reflexivity|lia]. Qed.

Lemma calls_roundTrip (env : Env) (r : Request) :
  callsAtMost 1 (roundTrip env r).
Proof. intros st. exists [r]. cbn. split; [reflexivity|lia]. Qed.

Create HintDb count_calls discriminated.

#[local] Hint Resolve calls_ret calls_panic calls_osExit calls_getState
  calls_appendLog calls_derefCfg calls_timeNow calls_roundTrip : count_calls.

(** Follows the binds of a computation: the one call is either in the
    first part of a bind or in what follows it. *)
Ltac count_calls :=
  lazymatch goal with
  | |- callsAtMost 0%nat (bind _ _) =>
      apply calls_bind_second; [count_calls | intros; count_calls]
  | |- callsAtMost _ (bind _ _) =>
      first [ apply calls_bind_second; [solve [count_calls] | intros; count_calls]
            | apply calls_bind_first; [count_calls | intros; solve [count_calls]] ]
  | |- callsAtMost _ (match ?x with _ => _ end) => destruct x; count_calls
  | |- callsAtMost _ _ => solve [auto with count_calls]
  end.

Ltac calls_unfold :=
  unfold logInfo, logPrint, logFatal, derefResp, derefUser, httpGet, httpPost.

Lemma calls_V1_rangeUsers (lib : Lib) (rest : list (option User.t)) :
  forall idx acc, callsAtMost 0 (V1.rangeUsers lib idx rest acc).
Proof.
  induction rest as [|u rest IH]; intros idx acc; cbn [V1.rangeUsers].
  - apply calls_ret.
  - apply calls_bind_second; [|intros user; apply IH].
    destruct u; [apply calls_ret|apply calls_panic].
Qed.

#[local] Hint Resolve calls_V1_rangeUsers : count_calls.

Lemma calls_V1_handler (lib : Lib) (env : Env)
      (h : HandlerName) (r : InboundRequest) :
  callsAtMost 1 (V1.handler lib env h r).
Proof.
  destruct h; cbn [V1.handler];
    unfold V1.handlerIndex, V1.handlerGetMessages, V1.handlerGetUsers,
           V1.handlerSendMessage, V1.getMessages, V1.getActiveUsers,
           V1.sendMessage;
    calls_unfold; count_calls.
Qed.

Lemma calls_V1_tick (env : Env) : callsAtMost 1 (V1.tick env).
Proof. unfold V1.tick, V1.sendPing. calls_unfold. count_calls. Qed.

Lemma step_calls_at_most_once
      (handler : HandlerName -> InboundRequest -> M Reply) (tick : M unit) :
  (forall h r, callsAtMost 1 (handler h r)) ->
  callsAtMost 1 tick ->
  forall ev p,
  exists added : list Request,
    calls (stateOf (step handler tick ev p)) = (calls (stateOf p) ++ added)%list
    /\ (length added <= 1)%nat.
Proof.
  intros Hhandler Htick ev p.
  assert (Hnone : exists added : list Request,
             calls (stateOf p) = (calls (stateOf p) ++ added)%list /\
             (length added <= 1)%nat).
  { exists []. rewrite app_nil_r. split; [reflexivity|cbn; lia]. }
  destruct p as [st|st reason|st code]; cbn [step stateOf] in *;
    try exact Hnone.
  destruct ev as [|path r].
  - specialize (Htick st).
    destruct (tick st) as [[[]|reason|code] st']; exact Htick.
  - destruct (route (routes st) path) as [h|]; [|exact Hnone].
    specialize (Hhandler h r st).
    destruct (handler h r st) as [[reply|reason|code] st']; exact Hhandler.
Qed.

(** However the first variant is driven, by ticks of the heartbeat and by
    requests of browsers in any order, its history of calls only grows, and
    by at most one call of the HTTP client for each event: no view and no
    tick calls the client twice.  (How many requests the client puts on the
    wire for a call is its own doing.) *)
Theorem run_calls_client_at_most_once_per_event
        (lib : Lib) (env : Env) (evs : list Event) (p : Process) :
  exists added : list Request,
    calls (stateOf (run (V1.handler lib env) (V1.tick env) evs p)) =
    (calls (stateOf p) ++ added)%list /\
    (length added <= length evs)%nat.
Proof.
  revert p. induction evs as [|ev evs IH]; intros p; cbn [run fold_left].
  - exists []. rewrite app_nil_r. split; [reflexivity|cbn; lia].
  - destruct (step_calls_at_most_once
                (V1.handler lib env) (V1.tick env)
                (calls_V1_handler lib env) (calls_V1_tick env) ev p)
      as (first & Hfirst & Hone).
    destruct (IH (step (V1.handler lib env) (V1.tick env) ev p))
      as (more & Hmore & Hlen).
    exists (first ++ more)%list. unfold run in Hmore.
    rewrite Hmore, Hfirst, app_assoc. split; [reflexivity|].
    rewrite length_app. cbn [length]. lia.
Qed.

(** ** The views when the list grows or holds a nil entry *)

Lemma rangeMessages_from_acc (rest : list Message.t) :
  forall idx acc,
    V1.rangeMessages idx rest acc =
    (acc ++ V1.rangeMessages idx rest [])%list.
Proof.
  induction rest as [|msg rest IH]; intros idx acc; cbn [V1.rangeMessages].
  - rewrite app_nil_r. reflexivity.
  - rewrite IH. rewrite (IH (idx + 1) ([] ++ _)%list).
    cbn [app]. rewrite <- app_assoc. reflexivity.
Qed.

Lemma rangeMessages_app (old : list Message.t) :
  forall new idx acc,
    V1.rangeMessages idx (old ++ new) acc =
    V1.rangeMessages (idx + Z.of_nat (length old)) new
                     (V1.rangeMessages idx old acc).
Proof.
  induction old as [|msg old IH]; intros new idx acc.
  - cbn. rewrite Z.add_0_r. reflexivity.
  - rewrite <- app_comm_cons. cbn [V1.rangeMessages length]. rewrite IH.
    replace (idx + 1 + Z.of_nat (length old))
      with (idx + Z.of_nat (S (length old))) by lia.
    reflexivity.
Qed.

(** When the backend's list grows at its end, the lines of the messages
    view are the lines shown before, unchanged and under the same indices,
    followed by the lines of the new messages, which are numbered on from
    the length of the old list. *)
Theorem messages_view_lines_are_stable (old new : list Message.t) :
  V1.rangeMessages 0 (old ++ new) [] =
  (V1.rangeMessages 0 old [] ++
   V1.rangeMessages (Z.of_nat (length old)) new [])%list.
Proof.
  rewrite rangeMessages_app, rangeMessages_from_acc. reflexivity.
Qed.

Lemma rangeUsers_state (lib : Lib) (rest : list (option User.t)) :
  forall idx acc st, snd (V1.rangeUsers lib idx rest acc st) = st.
Proof.
  induction rest as [|u rest IH]; intros idx acc st; cbn [V1.rangeUsers].
  - reflexivity.
  - destruct u as [user|]; cbn; [apply IH|reflexivity].
Qed.

Lemma first_nil_pointer (fetched : list (option User.t)) :
  In None fetched ->
  exists before after,
    fetched = (before ++ None :: after)%list /\
    forall u, In u before -> u <> None.
Proof.
  induction fetched as [|u fetched IH]; intros Hin.
  - destruct Hin.
  - destruct u as [user|].
    + destruct Hin as [Hin|Hin]; [discriminate|].
      destruct (IH Hin) as (before & after & -> & Hsome).
      exists (Some user :: before), after. split; [reflexivity|].
      intros u [<-|Hu]; [discriminate|apply Hsome; exact Hu].
    + exists [], fetched. split; [reflexivity|]. intros u [].
Qed.

(** When the list that [getActiveUsers] returns holds a nil pointer, which
    is what a [null] in the backend's array decodes to, the users view of
    the first variant panics on reading the entry and writes no page. *)
Theorem handlerGetUsers_nil_entry_panics
        (lib : Lib) (env : Env) (r : InboundRequest) (st st' : State)
        (fetched : list (option User.t)) :
  V1.getActiveUsers lib env st = (Return fetched, st') ->
  In None fetched ->
  V1.handlerGetUsers lib env r st = (Panic nilDereference, st').
Proof.
  intros Hget Hin.
  destruct (first_nil_pointer fetched Hin) as (before & after & -> & Hsome).
  unfold V1.handlerGetUsers. rewrite (bind_Return _ _ _ _ _ Hget).
  pose proof (rangeUsers_nil_pointer lib before after 0 [] st' Hsome) as Hfst.
  pose proof (rangeUsers_state lib (before ++ None :: after) 0 [] st') as Hsnd.
  unfold bind.
  destruct (V1.rangeUsers lib 0 (before ++ None :: after) [] st')
    as [outcome st'']. cbn in Hfst, Hsnd. subst. reflexivity.
Qed.

Lemma handlerGetUsers_nil_entry_panics_witness :
  V1.handlerGetUsers Corner.lib Corner.world Fixture.emptyForm
                     Fixture.started =
  (Panic nilDereference,
   snd (V1.getActiveUsers Corner.lib Corner.world Fixture.started)).
Proof.
  refine (handlerGetUsers_nil_entry_panics
            Corner.lib Corner.world Fixture.emptyForm Fixture.started
            (snd (V1.getActiveUsers Corner.lib Corner.world Fixture.started))
            [Some (User.mk "alice" zeroTime); None] _ _).
  - vm_compute. reflexivity.
  - right. left. reflexivity.
Defined.

(** ** Startup *)

(** When one of the two required variables is unset or empty, [main] of
    either variant ends the process with status 1 at the check: [cfg] is
    still nil, no route is registered and no request has been sent. *)
Theorem startup_missing_variable_exits (lib : Lib) (env : Env) :
  Getenv env envVarUserNameKey = EmptyString \/
  Getenv env envVarConfigFileNameKey = EmptyString ->
  (fst (V1.startup lib env (initialState env)) = Exit 1 /\
   cfg (snd (V1.startup lib env (initialState env))) = None /\
   routes (snd (V1.startup lib env (initialState env))) = [] /\
   calls (snd (V1.startup lib env (initialState env))) = []) /\
  (fst (V2.startup lib env (initialState env)) = Exit 1 /\
   cfg (snd (V2.startup lib env (initialState env))) = None /\
   routes (snd (V2.startup lib env (initialState env))) = [] /\
   calls (snd (V2.startup lib env (initialState env))) = []).
Proof.
  intros Hmissing.
  unfold V1.startup, V2.startup, V1.requireEnv, V2.requireEnv, bind,
         logFatal, appendLog, osExit, ret.
  destruct (String.eqb_spec (Getenv env envVarUserNameKey) EmptyString)
    as [Huser|Huser].
  - cbn. repeat split; reflexivity.
  - destruct (String.eqb_spec (Getenv env envVarConfigFileNameKey)
                              EmptyString) as [Hfile|Hfile].
    + cbn. repeat split; reflexivity.
    + exfalso. destruct Hmissing as [H|H]; [apply Huser|apply Hfile]; exact H.
Qed.

Lemma startup_missing_variable_exits_witness :
  (fst (V1.startup Fixture.lib Corner.noVariables
                   (initialState Corner.noVariables)) = Exit 1 /\
   cfg (snd (V1.startup Fixture.lib Corner.noVariables
                        (initialState Corner.noVariables))) = None /\
   routes (snd (V1.startup Fixture.lib Corner.noVariables
                           (initialState Corner.noVariables))) = [] /\
   calls (snd (V1.startup Fixture.lib Corner.noVariables
                         (initialState Corner.noVariables))) = []) /\
  (fst (V2.startup Fixture.lib Corner.noVariables
                   (initialState Corner.noVariables)) = Exit 1 /\
   cfg (snd (V2.startup Fixture.lib Corner.noVariables
                        (initialState Corner.noVariables))) = None /\
   routes (snd (V2.startup Fixture.lib Corner.noVariables
                           (initialState Corner.noVariables))) = [] /\
   calls (snd (V2.startup Fixture.lib Corner.noVariables
                         (initialState Corner.noVariables))) = []).
Proof.
  exact (startup_missing_variable_exits
           Fixture.lib Corner.noVariables (or_introl eq_refl)).
Defined.

Lemma readConfig_state (lib : Lib) (env : Env) (fileName : string)
      (st : State) :
  let st' := snd (V1.readConfig lib env fileName st) in
  cfg st' = cfg st /\ envVarUserName st' = envVarUserName st /\
  envVarConfigFileName st' = envVarConfigFileName st /\
  routes st' = routes st /\ calls st' = calls st.
Proof.
  unfold V1.readConfig.
  destruct (ReadFile env fileName) as [err|data].
  - cbn. repeat split; reflexivity.
  - destruct (UnmarshalConfig lib data _) as [parsed [err|]];
      cbn; repeat split; reflexivity.
Qed.

Lemma readConfig_V1_complete (lib : Lib) (env : Env) (fileName : string)
      (st : State) (c : ChatConfig) :
  fst (V1.readConfig lib env fileName st) = Return (Some c) ->
  ChatServerFQDN c <> EmptyString /\ ChatServerPort c <> 0 /\
  WebServerPortNumber c <> 0.
Proof.
  unfold V1.readConfig.
  destruct (ReadFile env fileName) as [err|data]; [discriminate|].
  destruct (UnmarshalConfig lib data _) as [[host port web] [err|]];
    [discriminate|].
  cbn [ChatServerPort ChatServerFQDN WebServerPortNumber].
  destruct (Z.eqb_spec port 0) as [Hp|Hp];
    cbn [ChatServerPort ChatServerFQDN WebServerPortNumber];
    destruct (String.eqb_spec host EmptyString) as [Hh|Hh];
    cbn [ChatServerPort ChatServerFQDN WebServerPortNumber];
    destruct (Z.eqb_spec web 0) as [Hw|Hw];
    cbn; intros Heq; injection Heq as <-; cbn;
    repeat split; (assumption || discriminate).
Qed.

Lemma readConfig_V2_complete (lib : Lib) (env : Env) (fileName : string)
      (st : State) (c : ChatConfig) :
  fst (V2.readConfig lib env fileName st) = Return (Some c) ->
  ChatServerFQDN c <> EmptyString /\ ChatServerPort c <> 0 /\
  WebServerPortNumber c <> 0.
Proof.
  unfold V2.readConfig.
  destruct (ReadFile env fileName) as [err|data]; [discriminate|].
  destruct (UnmarshalConfig lib data _) as [[host port web] [err|]];
    [discriminate|].
  cbn [ChatServerPort ChatServerFQDN WebServerPortNumber].
  destruct (Z.eqb_spec port 0) as [Hp|Hp];
    cbn [ChatServerPort ChatServerFQDN WebServerPortNumber];
    destruct (String.eqb_spec host EmptyString) as [Hh|Hh];
    cbn [ChatServerPort ChatServerFQDN WebServerPortNumber];
    destruct (Z.eqb_spec web 0) as [Hw|Hw];
    cbn; intros Heq; injection Heq as <-; cbn;
    repeat split; (assumption || discriminate).
Qed.

(** A configuration that [readConfig] of either variant returns is
    complete, whatever the file held and whatever the decoder did: its host
    is not empty and neither of its ports is 0. *)
Theorem readConfig_result_is_complete
        (lib : Lib) (env : Env) (fileName : string) (st : State)
        (c : ChatConfig) :
  fst (V1.readConfig lib env fileName st) = Return (Some c) \/
  fst (V2.readConfig lib env fileName st) = Return (Some c) ->
  ChatServerFQDN c <> EmptyString /\ ChatServerPort c <> 0 /\
  WebServerPortNumber c <> 0.
Proof.
  intros [H|H].
  - exact (readConfig_V1_complete lib env fileName st c H).
  - exact (readConfig_V2_complete lib env fileName st c H).
Qed.

Lemma readConfig_result_is_complete_witness :
  fst (V1.readConfig Fixture.lib Fixture.serving "client.cfg"
                     (initialState Fixture.serving)) =
  Return (Some (mkChatConfig "chat.server.net" 9090 99)) /\
  "chat.server.net" <> EmptyString /\ 9090 <> 0 /\ 99 <> 0.
Proof.
  split.
  - vm_compute. reflexivity.
  - exact (readConfig_result_is_complete
             Fixture.lib Fixture.serving "client.cfg"
             (initialState Fixture.serving)
             (mkChatConfig "chat.server.net" 9090 99) (or_introl eq_refl)).
Defined.

(** The decoder of [encoding/json] writes the members a document has into
    the fields they name and leaves the other fields as they are, and
    whether it fails does not depend on what the fields held.  With any
    decoder that works so, the first variant, which decodes into a struct
    that holds the defaults, and the second, which decodes into a zero
    struct, return the same configuration or the same nil, and log the
    same. *)
Theorem readConfig_variants_agree
        (lib : Lib) (env : Env) (fileName data : string) (st : State)
        (host : option string) (port web : option Z)
        (err : option string) :
  ReadFile env fileName = ReadOK data ->
  (forall c,
      UnmarshalConfig lib data c =
      (mkChatConfig
         (match host with Some h => h | None => ChatServerFQDN c end)
         (match port with Some p => p | None => ChatServerPort c end)
         (match web with Some w => w | None => WebServerPortNumber c end),
       err)) ->
  V1.readConfig lib env fileName st = V2.readConfig lib env fileName st.
Proof.
  intros Hread Hdec. unfold V1.readConfig, V2.readConfig.
  rewrite Hread, !Hdec.
  destruct err as [e|]; [reflexivity|].
  cbn [ChatServerPort ChatServerFQDN WebServerPortNumber].
  cbv [defaultHTTPChatServer defaultHTTPChatPort defaultWebServerPortNumber].
  destruct host as [h|], port as [p|], web as [w|]; simpl;
    repeat
      (match goal with
       | |- context [Z.eqb ?a 0] => is_var a; destruct (Z.eqb_spec a 0)
       | |- context [String.eqb ?a EmptyString] =>
           is_var a; destruct (String.eqb_spec a EmptyString)
       end; subst; simpl);
    reflexivity.
Qed.

Lemma readConfig_variants_agree_witness :
  V1.readConfig Fixture.lib Fixture.serving "client.cfg"
                (initialState Fixture.serving) =
  V2.readConfig Fixture.lib Fixture.serving "client.cfg"
                (initialState Fixture.serving).
Proof.
  refine (readConfig_variants_agree
            Fixture.lib Fixture.serving "client.cfg" Fixture.configDoc
            (initialState Fixture.serving) None (Some 9090) None None
            eq_refl _).
  intros c. reflexivity.
Defined.

(** When [main] of the first variant gets as far as listening, the process
    is fully set up: both required variables are set, [cfg] points to a
    configuration whose host is not empty and whose ports are not 0, the four
    routes are registered in the order of the source, and nothing has been
    sent to the backend yet. *)
Theorem startup_returns_only_when_configured (lib : Lib) (env : Env) :
  fst (V1.startup lib env (initialState env)) = Return tt ->
  let st := snd (V1.startup lib env (initialState env)) in
  exists c : ChatConfig,
    cfg st = Some c /\
    (ChatServerFQDN c <> EmptyString /\ ChatServerPort c <> 0 /\
     WebServerPortNumber c <> 0) /\
    (envVarUserName st = Getenv env envVarUserNameKey /\
     Getenv env envVarUserNameKey <> EmptyString /\
     Getenv env envVarConfigFileNameKey <> EmptyString) /\
    routes st = [("/", HIndex); ("/get-messages", HGetMessages);
                 ("/get-users", HGetUsers); ("/send-message", HSendMessage)]
    /\ calls st = [].
Proof.
  unfold V1.startup, V1.requireEnv.
  unfold bind at 1 2. unfold logFatal, appendLog, osExit, ret, bind at 1 2 3.
  destruct (String.eqb_spec (Getenv env envVarUserNameKey) EmptyString)
    as [Huser|Huser]; [cbn; discriminate|].
  destruct (String.eqb_spec (Getenv env envVarConfigFileNameKey) EmptyString)
    as [Hfile|Hfile]; [cbn; discriminate|].
  cbn -[V1.readConfig].
  pose proof (readConfig_state lib env (Getenv env envVarConfigFileNameKey)
                               (initialState env)) as Hstate.
  pose proof (readConfig_V1_complete lib env
                (Getenv env envVarConfigFileNameKey) (initialState env))
    as Hcomplete.
  cbv zeta in Hstate.
  destruct (V1.readConfig lib env (Getenv env envVarConfigFileNameKey)
                          (initialState env))
    as [[[c|]|reason|code] st1] eqn:Hread;
    [ rewrite !(bind_Return _ _ _ _ _ Hread)
    | rewrite !(bind_Return _ _ _ _ _ Hread)
    | rewrite !(bind_Panic _ _ _ _ _ Hread)
    | rewrite !(bind_Exit _ _ _ _ _ Hread) ];
    cbn in Hstate, Hcomplete |- *; try discriminate.
  destruct Hstate as (_ & Huser' & _ & Hroutes & Hcalls).
  intros _. exists c.
  rewrite Hroutes, Hcalls, Huser'.
  split; [reflexivity|]. split; [exact (Hcomplete c eq_refl)|].
  repeat split; assumption.
Qed.

Lemma startup_returns_only_when_configured_witness :
  exists c : ChatConfig,
    cfg Fixture.started = Some c /\
    (ChatServerFQDN c <> EmptyString /\ ChatServerPort c <> 0 /\
     WebServerPortNumber c <> 0) /\
    (envVarUserName Fixture.started = "user1" /\
     "user1" <> EmptyString /\ "client.cfg" <> EmptyString) /\
    routes Fixture.started =
    [("/", HIndex); ("/get-messages", HGetMessages);
     ("/get-users", HGetUsers); ("/send-message", HSendMessage)]
    /\ calls Fixture.started = [].
Proof.
  exact (startup_returns_only_when_configured
           Fixture.lib Fixture.serving eq_refl).
Defined.

(** When both variables are set and the file is read but the decoder
    reports an error, [main] of the first variant assigns the nil that
    [readConfig] returns to [cfg], registers the four routes and then panics
    on reading the configuration for its log line: the process never gets
    to listen. *)
Theorem startup_unparsable_file_panics
        (lib : Lib) (env : Env) (data err : string) (left : ChatConfig) :
  Getenv env envVarUserNameKey <> EmptyString ->
  Getenv env envVarConfigFileNameKey <> EmptyString ->
  ReadFile env (Getenv env envVarConfigFileNameKey) = ReadOK data ->
  UnmarshalConfig lib data
    (mkChatConfig defaultHTTPChatServer defaultHTTPChatPort
                  defaultWebServerPortNumber) = (left, Some err) ->
  fst (V1.startup lib env (initialState env)) = Panic nilDereference /\
  cfg (snd (V1.startup lib env (initialState env))) = None /\
  map fst (routes (snd (V1.startup lib env (initialState env)))) =
  ["/"; "/get-messages"; "/get-users"; "/send-message"].
Proof.
  intros Huser Hfile Hread Hdec.
  unfold V1.startup, V1.requireEnv.
  unfold bind at 1 2. unfold logFatal, appendLog, osExit, ret, bind at 1 2 3.
  destruct (String.eqb_spec (Getenv env envVarUserNameKey) EmptyString)
    as [Hu|_]; [contradiction|].
  destruct (String.eqb_spec (Getenv env envVarConfigFileNameKey) EmptyString)
    as [Hf|_]; [contradiction|].
  cbn -[V1.readConfig].
  assert (Hrc : V1.readConfig lib env (Getenv env envVarConfigFileNameKey)
                              (initialState env) =
                (Return None,
                 snd (V1.readConfig lib env
                                    (Getenv env envVarConfigFileNameKey)
                                    (initialState env)))).
  { unfold V1.readConfig. rewrite Hread, Hdec. reflexivity. }
  pose proof (readConfig_state lib env (Getenv env envVarConfigFileNameKey)
                               (initialState env)) as Hstate.
  cbv zeta in Hstate. destruct Hstate as (_ & _ & _ & Hroutes & _).
  rewrite !(bind_Return _ _ _ _ _ Hrc). cbn.
  rewrite Hroutes. repeat split; reflexivity.
Qed.

Lemma startup_unparsable_file_panics_witness :
  fst (V1.startup Fixture.lib Fixture.badConfigFile
                  (initialState Fixture.badConfigFile)) =
  Panic nilDereference /\
  cfg (snd (V1.startup Fixture.lib Fixture.badConfigFile
                       (initialState Fixture.badConfigFile))) = None /\
  map fst (routes (snd (V1.startup Fixture.lib Fixture.badConfigFile
                                   (initialState Fixture.badConfigFile)))) =
  ["/"; "/get-messages"; "/get-users"; "/send-message"].
Proof.
  refine (startup_unparsable_file_panics
            Fixture.lib Fixture.badConfigFile "not json" Fixture.syntaxError
            (mkChatConfig defaultHTTPChatServer defaultHTTPChatPort
                          defaultWebServerPortNumber)
            _ _ eq_refl eq_refl);
    vm_compute; intros H; discriminate H.
Defined.

(** ** The second variant ends the process where the first goes on *)

(** With the configuration loaded, [getMessages] of the second variant
    returns a list only if the client handed back a response without an
    error, the status was 200 and the decoder reported no error; the list is
    then what the decoder produced. *)
Theorem V2_getMessages_returns_only_decoded
        (lib : Lib) (env : Env) (st : State) (c : ChatConfig)
        (messages : list Message.t) :
  cfg st = Some c ->
  fst (V2.getMessages lib env st) = Return messages ->
  exists resp : Response,
    backend env (calls st)
            (mkRequest GET
                       ("http://" ++ ChatServerFQDN c ++ ":"
                                  ++ itoa (ChatServerPort c) ++ "/messages")
                       EmptyString None) = Answer resp /\
    StatusCode resp = 200 /\
    DecodeMessages lib (Body resp) = (messages, None).
Proof.
  intros Hcfg. run_call. rewrite Hcfg. unfold backendURL. cbn.
  match goal with
  | |- context [backend env ?h ?r] =>
      destruct (backend env h r) as [[resp|] [err|]]
  end; cbn; try discriminate.
  destruct (Z.eqb_spec (StatusCode resp) StatusOK) as [Hok|Hother]; cbn;
    [|discriminate].
  destruct (DecodeMessages lib (Body resp)) as [decoded [e|]] eqn:Hdecode;
    cbn; [discriminate|].
  intros Heq. injection Heq as ->.
  exists resp. split; [reflexivity|]. split; [exact Hok|exact Hdecode].
Qed.

Lemma V2_getMessages_returns_only_decoded_witness :
  exists resp : Response,
    backend Fixture.serving (calls Fixture.started)
            (mkRequest GET "http://chat.server.net:9090/messages"
                       EmptyString None) = Answer resp /\
    StatusCode resp = 200 /\
    DecodeMessages Fixture.lib (Body resp) =
    ([Message.mk "bob" "hi" zeroTime;
      Message.mk "eve" "yo" zeroTime;
      Message.mk "bob" "hi" zeroTime], None).
Proof.
  exact (V2_getMessages_returns_only_decoded
           Fixture.lib Fixture.serving Fixture.started
           (mkChatConfig "chat.server.net" 9090 99)
           [Message.mk "bob" "hi" zeroTime;
            Message.mk "eve" "yo" zeroTime;
            Message.mk "bob" "hi" zeroTime] eq_refl eq_refl).
Defined.

(** With the configuration loaded, the send-message handler of the second
    variant redirects to the index when the form cannot be parsed and when
    the post comes back without an error and with status 201; a post that
    comes back with an error or with another status ends the process with
    status 1, and no redirect is written. *)
Theorem V2_handlerSendMessage_outcome
        (env : Env) (r : InboundRequest) (st : State) (c : ChatConfig) :
  cfg st = Some c ->
  fst (V2.handlerSendMessage env r st) =
  match ParseForm r with
  | FormError _ => Return (Redirect "/" 302)
  | FormOK form =>
      let answer :=
        backend env (calls st)
                (messagePost c (envVarUserName st)
                             (Get form formKeyMessage)) in
      match rtErr answer, rtResp answer with
      | Some _, _ => Exit 1
      | None, None => Panic nilDereference
      | None, Some resp =>
          if StatusCode resp =? 201 then Return (Redirect "/" 302)
          else Exit 1
      end
  end.
Proof.
  intros Hcfg. unfold V2.handlerSendMessage.
  destruct (ParseForm r) as [err|form]; [reflexivity|].
  run_call. rewrite Hcfg. unfold messagePost, MarshalMessage. cbn.
  match goal with
  | |- context [backend env ?h ?q] =>
      destruct (backend env h q) as [[resp|] [e|]]
  end; cbn; try reflexivity.
  unfold StatusCreated. destruct (StatusCode resp =? 201); reflexivity.
Qed.

(** The same form, sent while the backend answers every post with status
    500: the first variant redirects, the second ends the process. *)
Lemma V2_handlerSendMessage_outcome_witness :
  fst (V2.handlerSendMessage Corner.world Fixture.helloForm Fixture.started) =
  Exit 1.
Proof.
  exact (V2_handlerSendMessage_outcome
           Corner.world Fixture.helloForm Fixture.started
           (mkChatConfig "chat.server.net" 9090 99) eq_refl).
Defined.

Lemma V2_sendPing_names_Alice_witness :
  map reqBody (calls (snd (V2.sendPing Fixture.serving Fixture.started))) =
  [Some [("username", JString "Alice"); ("timeSent", JTime zeroTime)]] /\
  envVarUserName Fixture.started = "user1".
Proof.
  split.
  - exact (V2_sendPing_names_Alice Fixture.serving Fixture.started
                                   (mkChatConfig "chat.server.net" 9090 99)
                                   eq_refl).
  - reflexivity.
Defined.

(** ** The heartbeat when the backend does not answer *)

(** With the configuration loaded, a tick of the first variant's heartbeat
    whose post comes back without a response panics in [sendPing], after the
    post was sent; as the panic is in the heartbeat's goroutine and not in a
    handler, it ends the process. *)
Theorem heartbeat_panic_ends_the_process
        (lib : Lib) (env : Env) (st : State) (c : ChatConfig) :
  cfg st = Some c ->
  rtResp (backend env (calls st)
                  (mkRequest POST
                             ("http://" ++ ChatServerFQDN c ++ ":"
                                        ++ itoa (ChatServerPort c) ++ "/ping")
                             "application/json"
                             (Some (MarshalPing
                                      (Ping.mk (envVarUserName st)
                                               zeroTime))))) = None ->
  fst (V1.tick env st) = Panic nilDereference /\
  step (V1.handler lib env) (V1.tick env) Tick (Running st) =
  Crashed (snd (V1.tick env st)) nilDereference.
Proof.
  intros Hcfg Hnone.
  assert (Hpanic : fst (V1.tick env st) = Panic nilDereference).
  { revert Hnone. run_call. rewrite Hcfg.
    unfold backendURL, MarshalPing. cbn.
    match goal with
    | |- context [backend env ?h ?r] =>
        destruct (backend env h r) as [[resp|] [e|]]
    end; cbn; intros Hnone; try discriminate Hnone; reflexivity. }
  split; [exact Hpanic|].
  cbn [step]. destruct (V1.tick env st) as [outcome st'].
  cbn in Hpanic. subst outcome. reflexivity.
Qed.

Lemma heartbeat_panic_ends_the_process_witness :
  fst (V1.tick Fixture.unreachable Fixture.started) = Panic nilDereference /\
  step (V1.handler Fixture.lib Fixture.unreachable)
       (V1.tick Fixture.unreachable) Tick (Running Fixture.started) =
  Crashed (snd (V1.tick Fixture.unreachable Fixture.started)) nilDereference.
Proof.
  exact (heartbeat_panic_ends_the_process
           Fixture.lib Fixture.unreachable Fixture.started
           (mkChatConfig "chat.server.net" 9090 99) eq_refl eq_refl).
Defined.
